(** * Cell tracker: the aggregation, export, backup/restore, submission,
    leader and picture handlers of [app.py], embedded as Rocq functions.

    The handlers are modelled for an authenticated session (the body under
    [login_required]).  The relational store is a pair of tables, each a list
    of rows in row order, with typed columns in which NULL is [None]; a
    transaction that ends in [rollback] leaves the store it started from.
    Where the answer depends on the database engine, the model follows
    SQLite, the store the application configures by default.  The clock is
    an argument ([now] for [datetime.utcnow()], [today] for
    [datetime.now().date()]).  An exception that leaves a handler without a
    [try] is the result [Raise].  The upload folder is the set of the names
    of the files in it. *)

From Stdlib Require Import ZArith Floats Ascii String.
From stdpp Require Import gmap strings list fin_maps sorting pretty.

Local Open Scope string_scope.
Local Open Scope Z_scope.

(** ** Exceptions and the result of a fallible step *)

Inductive exn :=
| KeyError (key : string)
| TypeError
| ValueError
| AttributeError
| JSONDecodeError
| StatementError
| IntegrityError.

Inductive res (A : Type) :=
| Ok (a : A)
| Raise (e : exn).
Arguments Ok {A} a.
Arguments Raise {A} e.

#[global] Instance res_ret : MRet res := λ A a, Ok a.

#[global] Instance res_bind : MBind res := λ A B k m,
  match m with
  | Ok a => k a
  | Raise e => Raise e
  end.

Definition is_ok {A} (m : res A) : bool :=
  match m with Ok _ => true | Raise _ => false end.

(** [for x in xs: acc = step(acc, x)], where a step may raise. *)
Fixpoint for_each {A S} (step : S → A → res S) (xs : list A) (acc : S) : res S :=
  match xs with
  | [] => Ok acc
  | x :: xs' => acc' ← step acc x; for_each step xs' acc'
  end.

(** A list built entry by entry, where building an entry may raise. *)
Fixpoint collect {A B} (f : A → res B) (xs : list A) : res (list B) :=
  match xs with
  | [] => Ok []
  | x :: xs' => y ← f x; ys ← collect f xs'; Ok (y :: ys)
  end.

(** Reading an attribute that arithmetic or a method call needs: [None]
    (a NULL column) raises there. *)
Definition need {A} (e : exn) (o : option A) : res A :=
  match o with
  | Some a => Ok a
  | None => Raise e
  end.

(** ** Decimal fields of fixed width *)

Definition digit (d : Z) : ascii := ascii_of_N (48 + Z.to_N d).

Definition digit_val (c : ascii) : option Z :=
  let n := Z.of_N (N_of_ascii c) in
  if bool_decide (48 ≤ n ≤ 57) then Some (n - 48) else None.

(** [n] written on [w] digits, zero-filled (["%0wd"]). *)
Fixpoint digits (w : nat) (n : Z) : list ascii :=
  match w with
  | O => []
  | S w' => digits w' (n / 10) ++ [digit (n mod 10)]
  end.

(** [int(s)] for a run of ASCII digits, reading left to right from [acc]. *)
Fixpoint number_from (acc : Z) (cs : list ascii) : option Z :=
  match cs with
  | [] => Some acc
  | c :: cs' =>
      match digit_val c with
      | Some d => number_from (10 * acc + d) cs'
      | None => None
      end
  end.

Definition number (cs : list ascii) : option Z :=
  match cs with
  | [] => None
  | _ => number_from 0 cs
  end.

(** ** Calendar dates ([datetime.date]) *)

Module Date.
Record t := mk { year : Z; month : Z; day : Z }.
End Date.

Definition _is_leap (year : Z) : bool :=
  (year mod 4 =? 0) && (negb (year mod 100 =? 0) || (year mod 400 =? 0)).

Definition _DAYS_IN_MONTH (month : Z) : Z :=
  match month with
  | 1 => 31 | 2 => 28 | 3 => 31 | 4 => 30 | 5 => 31 | 6 => 30
  | 7 => 31 | 8 => 31 | 9 => 30 | 10 => 31 | 11 => 30 | 12 => 31
  | _ => -1
  end.

Definition _DAYS_BEFORE_MONTH (month : Z) : Z :=
  match month with
  | 1 => 0 | 2 => 31 | 3 => 59 | 4 => 90 | 5 => 120 | 6 => 151
  | 7 => 181 | 8 => 212 | 9 => 243 | 10 => 273 | 11 => 304 | 12 => 334
  | _ => -1
  end.

Definition _days_before_year (year : Z) : Z :=
  let y := year - 1 in y * 365 + y / 4 - y / 100 + y / 400.

Definition _days_in_month (year month : Z) : Z :=
  if (month =? 2) && _is_leap year then 29 else _DAYS_IN_MONTH month.

Definition _days_before_month (year month : Z) : Z :=
  _DAYS_BEFORE_MONTH month + (if (2 <? month) && _is_leap year then 1 else 0).

Definition _ymd2ord (year month day : Z) : Z :=
  _days_before_year year + _days_before_month year month + day.

Definition _DI400Y : Z := 146097.
Definition _DI100Y : Z := 36524.
Definition _DI4Y : Z := 1461.

Definition _ord2ymd (ordinal : Z) : Date.t :=
  let n := ordinal - 1 in
  let n400 := n / _DI400Y in
  let n := n mod _DI400Y in
  let year := n400 * 400 + 1 in
  let n100 := n / _DI100Y in
  let n := n mod _DI100Y in
  let n4 := n / _DI4Y in
  let n := n mod _DI4Y in
  let n1 := n / 365 in
  let n := n mod 365 in
  let year := year + n100 * 100 + n4 * 4 + n1 in
  if (n1 =? 4) || (n100 =? 4) then Date.mk (year - 1) 12 31
  else
    let leapyear := (n1 =? 3) && (negb (n4 =? 24) || (n100 =? 3)) in
    let month := Z.shiftr (n + 50) 5 in
    let preceding :=
      _DAYS_BEFORE_MONTH month + (if (2 <? month) && leapyear then 1 else 0) in
    if n <? preceding then
      let month := month - 1 in
      let preceding :=
        preceding
        - (_DAYS_IN_MONTH month + (if (month =? 2) && leapyear then 1 else 0)) in
      Date.mk year month (n - preceding + 1)
    else Date.mk year month (n - preceding + 1).

(** The dates a [date] object can hold: years 1 to 9999, a day of the month. *)
Definition valid_date (d : Date.t) : bool :=
  bool_decide (1 ≤ Date.year d ≤ 9999)
  && bool_decide (1 ≤ Date.month d ≤ 12)
  && bool_decide (1 ≤ Date.day d ≤ _days_in_month (Date.year d) (Date.month d)).

Definition toordinal (d : Date.t) : Z :=
  _ymd2ord (Date.year d) (Date.month d) (Date.day d).

(** [d - timedelta(days=n)]. *)
Definition date_sub_days (d : Date.t) (n : Z) : Date.t :=
  _ord2ymd (toordinal d - n).

(** [a <= b] on dates: the order of (year, month, day). *)
Definition date_leb (a b : Date.t) : bool :=
  match Date.year a ?= Date.year b with
  | Lt => true
  | Gt => false
  | Eq =>
      match Date.month a ?= Date.month b with
      | Lt => true
      | Gt => false
      | Eq => Date.day a <=? Date.day b
      end
  end.

Definition dash : ascii := "-"%char.

(** [date.isoformat()], which is also [strftime("%Y-%m-%d")] for the years
    from 1000 on (before that, the width of [%Y] depends on the platform's C
    library; the model zero-fills as [isoformat] does). *)
Definition date_chars (d : Date.t) : list ascii :=
  digits 4 (Date.year d) ++ dash :: digits 2 (Date.month d)
    ++ dash :: digits 2 (Date.day d).

Definition date_isoformat (d : Date.t) : string :=
  string_of_list_ascii (date_chars d).

Definition strftime_Ymd (d : Date.t) : string := date_isoformat d.

(** [strftime("%Y-%m")]. *)
Definition strftime_Ym (d : Date.t) : string :=
  string_of_list_ascii (digits 4 (Date.year d) ++ dash :: digits 2 (Date.month d)).

Definition checked_date (y m d : Z) : res Date.t :=
  let dt := Date.mk y m d in
  if valid_date dt then Ok dt else Raise ValueError.

(** The field [%m] of [strptime] matches [1[0-2]|0[1-9]|[1-9]] and the field
    [%d] matches [3[01]|[12]\d|0[1-9]|[1-9]| [1-9]]: one or two digits, not
    zero.  Each is given here the whole run of characters up to the next
    separator (or the end), since the separator is not a digit. *)
Definition month_field (cs : list ascii) : option Z :=
  match cs with
  | [_] | [_; _] =>
      match number cs with
      | Some m => if bool_decide (1 ≤ m ≤ 12) then Some m else None
      | None => None
      end
  | _ => None
  end.

Definition day_field (cs : list ascii) : option Z :=
  let plain :=
    match cs with
    | [_] | [_; _] =>
        match number cs with
        | Some d => if bool_decide (1 ≤ d ≤ 31) then Some d else None
        | None => None
        end
    | _ => None
    end in
  match cs with
  | [sp; c] =>
      if bool_decide (sp = " "%char) then
        match digit_val c with
        | Some d => if bool_decide (1 ≤ d) then Some d else None
        | None => None
        end
      else plain
  | _ => plain
  end.

(** The characters before the first [sep], and those after it. *)
Fixpoint split_at (sep : ascii) (cs : list ascii) : option (list ascii * list ascii) :=
  match cs with
  | [] => None
  | c :: cs' =>
      if bool_decide (c = sep) then Some ([], cs')
      else
        match split_at sep cs' with
        | Some (a, b) => Some (c :: a, b)
        | None => None
        end
  end.

(** [datetime.strptime(s, "%Y-%m-%d").date()] on ASCII text: four digits of
    year, a month field, a day field, nothing after; then the date must
    exist. *)
Definition strptime_Ymd (s : string) : res Date.t :=
  match list_ascii_of_string s with
  | y1 :: y2 :: y3 :: y4 :: sep :: rest =>
      if bool_decide (sep = dash) then
        match number [y1; y2; y3; y4], split_at dash rest with
        | Some y, Some (ms, ds) =>
            match month_field ms, day_field ds with
            | Some m, Some d => checked_date y m d
            | _, _ => Raise ValueError
            end
        | _, _ => Raise ValueError
        end
      else Raise ValueError
  | _ => Raise ValueError
  end.

(** ** Timestamps (naive [datetime.datetime]) *)

Module DateTime.
Record t := mk {
  date : Date.t;
  hour : Z;
  minute : Z;
  second : Z;
  microsecond : Z
}.
End DateTime.

Definition valid_time (h mi s us : Z) : bool :=
  bool_decide (0 ≤ h < 24) && bool_decide (0 ≤ mi < 60)
  && bool_decide (0 ≤ s < 60) && bool_decide (0 ≤ us < 1000000).


Definition colon : ascii := ":"%char.
Definition dot : ascii := "."%char.

Definition clock_chars (t : DateTime.t) : list ascii :=
  digits 2 (DateTime.hour t) ++ colon :: digits 2 (DateTime.minute t)
    ++ colon :: digits 2 (DateTime.second t).

(** [datetime.isoformat()]: the fraction is written only when it is not 0. *)
Definition isoformat (t : DateTime.t) : string :=
  string_of_list_ascii
    (date_chars (DateTime.date t) ++ "T"%char :: clock_chars t
       ++ (if DateTime.microsecond t =? 0 then []
           else dot :: digits 6 (DateTime.microsecond t))).

(** [strftime("%Y-%m-%d %H:%M")]. *)
Definition strftime_YmdHM (t : DateTime.t) : string :=
  string_of_list_ascii
    (date_chars (DateTime.date t) ++ " "%char :: digits 2 (DateTime.hour t)
       ++ colon :: digits 2 (DateTime.minute t)).

Definition checked_datetime (y mo d h mi s us : Z) : res DateTime.t :=
  dt ← checked_date y mo d;
  if valid_time h mi s us then Ok (DateTime.mk dt h mi s us) else Raise ValueError.

(** [datetime.fromisoformat(s)], the inverse of [isoformat]: the two shapes
    [isoformat] writes, with any one character between date and time.  The
    shorter and the zoned spellings that [fromisoformat] also reads are not
    part of the model and count as malformed. *)
Definition fromisoformat (s : string) : res DateTime.t :=
  match list_ascii_of_string s with
  | y1 :: y2 :: y3 :: y4 :: s1 :: mo1 :: mo2 :: s2 :: d1 :: d2 :: _ ::
    h1 :: h2 :: s3 :: mi1 :: mi2 :: s4 :: sc1 :: sc2 :: frac =>
      if bool_decide (s1 = dash ∧ s2 = dash ∧ s3 = colon ∧ s4 = colon) then
        let us :=
          match frac with
          | [] => Some 0
          | [p; f1; f2; f3; f4; f5; f6] =>
              if bool_decide (p = dot) then number [f1; f2; f3; f4; f5; f6]
              else None
          | _ => None
          end in
        match number [y1; y2; y3; y4], number [mo1; mo2], number [d1; d2],
              number [h1; h2], number [mi1; mi2], number [sc1; sc2], us with
        | Some y, Some mo, Some d, Some h, Some mi, Some sc, Some us =>
            checked_datetime y mo d h mi sc us
        | _, _, _, _, _, _, _ => Raise ValueError
        end
      else Raise ValueError
  | _ => Raise ValueError
  end.

(** ** Money amounts

    [cell_offering] is a [Float] column: the code adds Python floats
    (binary64).  The handlers are written once over the operations they use
    on amounts; [float_amount] is the instance the program runs with. *)

Class Amount (F : Type) := {
  azero : F;               (* the integer literal 0, as an amount *)
  aadd : F → F → F;        (* + *)
  a_of_Z : Z → F;          (* an integer stored in the Float column *)
  a_truthy : F → bool      (* [if x:], false for zero only *)
}.

(** Rounding of an integer to the nearest binary64. *)
Definition Z2float (z : Z) : float :=
  SF2Prim (binary_normalize 53 1024 z 0 false).

#[global] Instance float_amount : Amount float := {|
  azero := 0%float;
  aadd := PrimFloat.add;
  a_of_Z := Z2float;
  a_truthy := λ f, negb (PrimFloat.eqb f 0%float)
|}.

(** Amounts counted exactly (whole cents, say): addition without rounding. *)
#[global] Instance exact_amount : Amount Z := {|
  azero := 0;
  aadd := Z.add;
  a_of_Z := λ z, z;
  a_truthy := λ z, negb (z =? 0)
|}.

(** Addition on amounts is exact: a commutative monoid. *)
Class ExactAmount (F : Type) `{Amount F} : Prop := {
  aadd_assoc : ∀ a b c : F, aadd a (aadd b c) = aadd (aadd a b) c;
  aadd_comm : ∀ a b : F, aadd a b = aadd b a;
  aadd_zero_l : ∀ a : F, aadd azero a = a
}.


(** ** JSON values, as [json.load] returns them and [json.dumps] takes them *)

#[warnings="-register-all"]
Inductive json (F : Type) :=
| JNull
| JBool (b : bool)
| JInt (z : Z)
| JNum (f : F)
| JStr (s : string)
| JArr (items : list (json F))
| JObj (fields : gmap string (json F)).
Arguments JNull {F}.
Arguments JBool {F} b.
Arguments JInt {F} z.
Arguments JNum {F} f.
Arguments JStr {F} s.
Arguments JArr {F} items.
Arguments JObj {F} fields.

(** ** The two tables *)

Module Leader.
Record t := mk {
  id : Z;
  name : string;
  zone : string;
  cell_day : option string;
  contact_number : option string;
  email : option string;
  address : option string;
  profile_picture : option string;
  is_active : option bool;
  created_at : option DateTime.t;
  updated_at : option DateTime.t
}.
End Leader.

Module ServiceRecord.
Record t (F : Type) := mk {
  id : Z;
  leader_id : Z;
  service_type : string;
  service_date : Date.t;
  sunday_attendance : option Z;
  sunday_visitors : option Z;
  cell_attendance : option Z;
  cell_visitors : option Z;
  cell_offering : option F;
  cell_decisions : option Z;
  notes : option string;
  submitted_at : option DateTime.t
}.
Arguments mk {F}.
Arguments id {F}.
Arguments leader_id {F}.
Arguments service_type {F}.
Arguments service_date {F}.
Arguments sunday_attendance {F}.
Arguments sunday_visitors {F}.
Arguments cell_attendance {F}.
Arguments cell_visitors {F}.
Arguments cell_offering {F}.
Arguments cell_decisions {F}.
Arguments notes {F}.
Arguments submitted_at {F}.
End ServiceRecord.

(** Columns without [nullable=False] hold [None] for NULL.  [id] is the
    primary key, and [name], [zone], [leader_id], [service_type] and
    [service_date] are declared [nullable=False]. *)
Record Store (F : Type) := mkStore {
  leaders : list Leader.t;
  service_records : list (ServiceRecord.t F)
}.
Arguments mkStore {F}.
Arguments leaders {F}.
Arguments service_records {F}.

(** ** Results of the aggregation *)

Module Stats.
(** One group of [zone_stats], [leader_stats] or the trends. *)
Record t (F : Type) := mk {
  attendance : Z;
  visitors : Z;
  offering : F;
  decisions : Z;
  services : Z
}.
Arguments mk {F}.
Arguments attendance {F}.
Arguments visitors {F}.
Arguments offering {F}.
Arguments decisions {F}.
Arguments services {F}.
End Stats.

Module LeaderStats.
Record t (F : Type) := mk { stats : Stats.t F; zone : string }.
Arguments mk {F}.
Arguments stats {F}.
Arguments zone {F}.
End LeaderStats.

Module Overview.
Record t (F : Type) := mk {
  period : string;
  start_date : string;
  end_date : string;
  total_attendance : Z;
  total_visitors : Z;
  total_offering : F;
  total_decisions : Z;
  sunday_services : Z;
  cell_meetings : Z;
  zone_stats : gmap string (Stats.t F);
  leader_stats : gmap string (LeaderStats.t F);
  total_records : Z
}.
Arguments mk {F}.
Arguments period {F}.
Arguments start_date {F}.
Arguments end_date {F}.
Arguments total_attendance {F}.
Arguments total_visitors {F}.
Arguments total_offering {F}.
Arguments total_decisions {F}.
Arguments sunday_services {F}.
Arguments cell_meetings {F}.
Arguments zone_stats {F}.
Arguments leader_stats {F}.
Arguments total_records {F}.
End Overview.

(** A service record with the leader the join gives it ([record.leader]). *)
Definition Row (F : Type) : Type := ServiceRecord.t F * Leader.t.

Section Aggregation.
Context {F : Type} `{Amount F}.

Definition leader_of (s : Store F) (r : ServiceRecord.t F) : option Leader.t :=
  List.find (λ l, Leader.id l =? ServiceRecord.leader_id r) (leaders s).

(** [ServiceRecord.query.join(Leader)]: an inner join on the foreign key;
    a record whose leader is gone has no row. *)
Definition joined (s : Store F) : list (Row F) :=
  omap (λ r, l ← leader_of s r; Some (r, l)) (service_records s).

Definition is_sunday (r : ServiceRecord.t F) : bool :=
  String.eqb (ServiceRecord.service_type r) "sunday".

Definition is_cell (r : ServiceRecord.t F) : bool :=
  String.eqb (ServiceRecord.service_type r) "cell".

(** [if text:] on a string. *)
Definition truthy (text : string) : bool := negb (String.eqb text "").

Definition in_range (start_date end_date : Date.t) (row : Row F) : bool :=
  date_leb start_date (ServiceRecord.service_date row.1)
  && date_leb (ServiceRecord.service_date row.1) end_date.

Definition in_zone (zone_filter : string) (row : Row F) : bool :=
  String.eqb (Leader.zone row.2) zone_filter.

(** [ServiceRecord.leader_id == leader_id] with the request's text: the
    store compares the integer column with the text read as a decimal
    integer; text that is not one matches no record. *)
Definition has_leader (leader_id : string) (row : Row F) : bool :=
  match number (list_ascii_of_string leader_id) with
  | Some n => ServiceRecord.leader_id row.1 =? n
  | None => false
  end.

Definition when (cond : bool) (keep : Row F → bool) (row : Row F) : bool :=
  if cond then keep row else true.

(** The date range of [analytics_overview] and [analytics_trends]. *)
Definition period_start (period : string) (end_date : Date.t) : Date.t :=
  if String.eqb period "week" then date_sub_days end_date 7
  else if String.eqb period "month" then date_sub_days end_date 30
  else date_sub_days end_date 365.

(** The four readings of a record that the aggregations add up. *)
Definition attendance_of (r : ServiceRecord.t F) : option Z :=
  if is_sunday r then ServiceRecord.sunday_attendance r
  else ServiceRecord.cell_attendance r.

Definition visitors_of (r : ServiceRecord.t F) : option Z :=
  if is_sunday r then ServiceRecord.sunday_visitors r
  else ServiceRecord.cell_visitors r.

Definition offering_of (r : ServiceRecord.t F) : option F :=
  if is_cell r then ServiceRecord.cell_offering r else Some azero.

Definition decisions_of (r : ServiceRecord.t F) : option Z :=
  if is_cell r then ServiceRecord.cell_decisions r else Some 0.

(** [sum(...)] over integers and over amounts: the items are added from the
    left, starting from 0; adding [None] raises.  (On floats, Python 3.12
    and later carry the rounding error of each addition along; the result
    is the plain left sum whenever every partial sum is exact.) *)
Definition sum_ints (xs : list (option Z)) : res Z :=
  for_each (λ acc x, v ← need TypeError x; Ok (acc + v)) xs 0.

Definition sum_amounts (xs : list (option F)) : res F :=
  for_each (λ acc x, v ← need TypeError x; Ok (aadd acc v)) xs azero.

Definition no_stats : Stats.t F := Stats.mk 0 0 azero 0 0.

(** The five [+=] of a grouping loop, on the group [g] of [record]. *)
Definition add_record (record : ServiceRecord.t F) (g : Stats.t F)
  : res (Stats.t F) :=
  a ← need TypeError (attendance_of record);
  v ← need TypeError (visitors_of record);
  o ← need TypeError (offering_of record);
  d ← need TypeError (decisions_of record);
  Ok (Stats.mk (Stats.attendance g + a) (Stats.visitors g + v)
        (aadd (Stats.offering g) o) (Stats.decisions g + d)
        (Stats.services g + 1)).

(** One turn of a grouping loop: the group of [key] starts at zero when
    [key] is not in the dict yet. *)
Definition group_step (key : string) (record : ServiceRecord.t F)
    (groups : gmap string (Stats.t F)) : res (gmap string (Stats.t F)) :=
  g ← add_record record (default no_stats (groups !! key));
  Ok (<[key := g]> groups).

Definition zone_step (zone_stats : gmap string (Stats.t F)) (row : Row F)
  : res (gmap string (Stats.t F)) :=
  group_step (Leader.zone row.2) row.1 zone_stats.

Definition leader_step (leader_stats : gmap string (LeaderStats.t F)) (row : Row F)
  : res (gmap string (LeaderStats.t F)) :=
  let leader_name := Leader.name row.2 in
  let g :=
    default (LeaderStats.mk no_stats (Leader.zone row.2))
      (leader_stats !! leader_name) in
  st ← add_record row.1 (LeaderStats.stats g);
  Ok (<[leader_name := LeaderStats.mk st (LeaderStats.zone g)]> leader_stats).

Definition count (keep : ServiceRecord.t F → bool) (records : list (Row F)) : Z :=
  Z.of_nat (length (List.filter (λ row : Row F, keep row.1) records)).

(** The statistics of [analytics_overview] over the selected [records]. *)
Definition overview_of (period : string) (start_date end_date : Date.t)
    (records : list (Row F)) : res (Overview.t F) :=
  total_attendance ← sum_ints ((λ row : Row F, attendance_of row.1) <$> records);
  total_visitors ← sum_ints ((λ row : Row F, visitors_of row.1) <$> records);
  total_offering ←
    sum_amounts ((λ row : Row F, ServiceRecord.cell_offering row.1)
                   <$> List.filter (λ row : Row F, is_cell row.1) records);
  total_decisions ←
    sum_ints ((λ row : Row F, ServiceRecord.cell_decisions row.1)
                <$> List.filter (λ row : Row F, is_cell row.1) records);
  let sunday_services := count is_sunday records in
  let cell_meetings := count is_cell records in
  zone_stats ← for_each zone_step records ∅;
  leader_stats ← for_each leader_step records ∅;
  Ok (Overview.mk period (strftime_Ymd start_date) (strftime_Ymd end_date)
        total_attendance total_visitors total_offering total_decisions
        sunday_services cell_meetings zone_stats leader_stats
        (Z.of_nat (length records))).

(** The records either analytics handler selects: the join, the date
    range, then the optional filters. *)
Definition select (s : Store F) (start_date end_date : Date.t)
    (zone_filter leader_id : string) : list (Row F) :=
  List.filter
    (λ row, in_range start_date end_date row
            && when (truthy zone_filter) (in_zone zone_filter) row
            && when (truthy leader_id) (has_leader leader_id) row)
    (joined s).

(** [GET /api/analytics/overview]; an argument absent from the query string
    is [None]. *)
Definition analytics_overview (s : Store F) (today : Date.t)
    (period_arg zone_arg leader_id_arg : option string) : res (Overview.t F) :=
  let period := default "week" period_arg in
  let zone_filter := default "" zone_arg in
  let leader_id := default "" leader_id_arg in
  let end_date := today in
  let start_date := period_start period end_date in
  overview_of period start_date end_date
    (select s start_date end_date zone_filter leader_id).

(** The bucket a record falls in. *)
Definition date_key (period : string) (record : ServiceRecord.t F) : string :=
  if String.eqb period "year"
  then strftime_Ym (ServiceRecord.service_date record)
  else strftime_Ymd (ServiceRecord.service_date record).

Definition trend_step (period : string) (trends : gmap string (Stats.t F))
    (row : Row F) : res (gmap string (Stats.t F)) :=
  group_step (date_key period row.1) row.1 trends.

(** [sorted(trends.items())]: ascending keys (a key occurs once). *)
Definition sorted_items (trends : gmap string (Stats.t F))
  : list (string * Stats.t F) :=
  merge_sort (λ a b, String.leb a.1 b.1) (map_to_list trends).

(** The format the handler records next to the range; the grouping loop
    does not read it. *)
Definition group_format (period : string) : string :=
  if String.eqb period "week" then "%Y-%m-%d"
  else if String.eqb period "month" then "%Y-%m-%d"
  else "%Y-%m".

Definition trends_of (period : string) (records : list (Row F))
  : res (list (string * Stats.t F)) :=
  trends ← for_each (trend_step period) records ∅;
  Ok (sorted_items trends).

(** [GET /api/analytics/trends]. *)
Definition analytics_trends (s : Store F) (today : Date.t)
    (period_arg zone_arg : option string) : res (list (string * Stats.t F)) :=
  let period := default "week" period_arg in
  let zone_filter := default "" zone_arg in
  let end_date := today in
  let start_date := period_start period end_date in
  trends_of period (select s start_date end_date zone_filter "").

End Aggregation.

(** ** CSV export and the recent submissions *)

(** A field handed to [csv.writer]: it writes [str(x)], and nothing for
    [None]. *)
Inductive cell (F : Type) :=
| CInt (z : Z)
| CAmount (f : F)
| CText (s : string)
| CNone.
Arguments CInt {F} z.
Arguments CAmount {F} f.
Arguments CText {F} s.
Arguments CNone {F}.

Module Submission.
(** An entry of [GET /api/recent-submissions]. *)
Record t (F : Type) := mk {
  id : Z;
  leader_name : string;
  leader_zone : string;
  service_type : string;
  service_date : string;
  attendance : option Z;
  visitors : option Z;
  offering : option F;
  decisions : option Z;
  notes : option string;
  submitted_at : string
}.
Arguments mk {F}.
Arguments id {F}.
Arguments leader_name {F}.
Arguments leader_zone {F}.
Arguments service_type {F}.
Arguments service_date {F}.
Arguments attendance {F}.
Arguments visitors {F}.
Arguments offering {F}.
Arguments decisions {F}.
Arguments notes {F}.
Arguments submitted_at {F}.
End Submission.

(** The order of tuples of integers. *)
Fixpoint lex_leb (a b : list Z) : bool :=
  match a, b with
  | x :: a', y :: b' =>
      match x ?= y with
      | Lt => true
      | Gt => false
      | Eq => lex_leb a' b'
      end
  | [], _ => true
  | _ :: _, [] => false
  end.

Definition datetime_fields (t : DateTime.t) : list Z :=
  [Date.year (DateTime.date t); Date.month (DateTime.date t);
   Date.day (DateTime.date t); DateTime.hour t; DateTime.minute t;
   DateTime.second t; DateTime.microsecond t].

(** [a <= b] on a nullable timestamp column, NULL below every value (the
    rule of SQLite, the store the application is configured with by
    default). *)
Definition stamp_leb (a b : option DateTime.t) : bool :=
  match a, b with
  | None, _ => true
  | Some _, None => false
  | Some x, Some y => lex_leb (datetime_fields x) (datetime_fields y)
  end.

Fixpoint endswith (s suffix : string) : bool :=
  String.eqb s suffix
  || match s with
     | String _ s' => endswith s' suffix
     | EmptyString => false
     end.

Section Listing.
Context {F : Type} `{Amount F}.

Definition int_cell (o : option Z) : cell F :=
  match o with Some z => CInt z | None => CNone end.

Definition amount_cell (o : option F) : cell F :=
  match o with Some f => CAmount f | None => CNone end.

Definition csv_header : list (cell F) :=
  [CText "ID"; CText "Leader Name"; CText "Zone"; CText "Service Type";
   CText "Service Date"; CText "Attendance"; CText "Visitors";
   CText "Offering (ZAR)"; CText "Decisions"; CText "Notes";
   CText "Submitted At"].

(** The row written for one record. *)
Definition csv_row (row : Row F) : res (list (cell F)) :=
  let record := row.1 in
  let '(attendance, visitors, offering, decisions) :=
    if is_sunday record then
      (int_cell (ServiceRecord.sunday_attendance record),
       int_cell (ServiceRecord.sunday_visitors record),
       CInt 0, CInt 0)
    else
      (int_cell (ServiceRecord.cell_attendance record),
       int_cell (ServiceRecord.cell_visitors record),
       amount_cell (ServiceRecord.cell_offering record),
       int_cell (ServiceRecord.cell_decisions record)) in
  submitted_at ← need AttributeError (ServiceRecord.submitted_at record);
  Ok [CInt (ServiceRecord.id record);
      CText (Leader.name row.2);
      CText (Leader.zone row.2);
      CText (ServiceRecord.service_type record);
      CText (strftime_Ymd (ServiceRecord.service_date record));
      attendance; visitors; offering; decisions;
      CText (default "" (ServiceRecord.notes record));
      CText (strftime_YmdHM submitted_at)].

(** A bound of the export: absent or empty, no bound; otherwise it must
    parse. *)
Definition date_arg (arg : option string) : res (option Date.t) :=
  match arg with
  | None => Ok None
  | Some text =>
      if truthy text then d ← strptime_Ymd text; Ok (Some d) else Ok None
  end.

Definition by_date_desc (rows : list (Row F)) : list (Row F) :=
  merge_sort
    (λ a b, date_leb (ServiceRecord.service_date b.1)
              (ServiceRecord.service_date a.1))
    rows.

(** The records [export_csv] writes, in the order it writes them. *)
Definition export_selection (s : Store F) (start_date end_date : option Date.t)
    (zone_filter : string) : list (Row F) :=
  by_date_desc
    (List.filter
       (λ row : Row F,
          match start_date with
          | Some d => date_leb d (ServiceRecord.service_date row.1)
          | None => true
          end
          && match end_date with
             | Some d => date_leb (ServiceRecord.service_date row.1) d
             | None => true
             end
          && when (truthy zone_filter) (in_zone zone_filter) row)
       (joined s)).

Definition csv_of (records : list (Row F)) : res (list (list (cell F))) :=
  rows ← collect csv_row records;
  Ok (csv_header :: rows).

(** [GET /api/export-csv]: the rows of the file. *)
Definition export_csv (s : Store F)
    (start_date_arg end_date_arg zone_arg : option string)
  : res (list (list (cell F))) :=
  let zone_filter := default "" zone_arg in
  start_date ← date_arg start_date_arg;
  end_date ← date_arg end_date_arg;
  csv_of (export_selection s start_date end_date zone_filter).

Definition submission_of (row : Row F) : res (Submission.t F) :=
  let record := row.1 in
  submitted_at ← need AttributeError (ServiceRecord.submitted_at record);
  Ok (Submission.mk (ServiceRecord.id record) (Leader.name row.2)
        (Leader.zone row.2) (ServiceRecord.service_type record)
        (strftime_Ymd (ServiceRecord.service_date record))
        (attendance_of record) (visitors_of record)
        (offering_of record) (decisions_of record)
        (ServiceRecord.notes record) (strftime_YmdHM submitted_at)).

(** [GET /api/recent-submissions]: the 20 latest, newest first. *)
Definition recent_submissions (s : Store F) : res (list (Submission.t F)) :=
  let records :=
    take 20
      (merge_sort
         (λ a b : Row F, stamp_leb (ServiceRecord.submitted_at b.1)
                         (ServiceRecord.submitted_at a.1))
         (joined s)) in
  collect submission_of records.

End Listing.

(** ** Backup, restore and submission *)

(** The uploaded file: its name, and its body as [json.load] reads it,
    [None] when the body is not a JSON text. *)
Record Upload (F : Type) := mkUpload {
  filename : string;
  content : option (json F)
}.
Arguments mkUpload {F}.
Arguments filename {F}.
Arguments content {F}.

(** The answers of [restore_data] and [submit_totals], with their HTTP
    status. *)
Inductive reply :=
| Restored                      (* 200, success: true *)
| NoFileProvided                (* 400, success: false *)
| NoFileSelected                (* 400, success: false *)
| InvalidFileFormat             (* 400, success: false *)
| RestoreFailed (e : exn)       (* 500, success: false *)
| Submitted (record_id : Z)     (* 200, success: true *)
| SubmitFailed (e : exn).       (* 400, success: false *)

Definition success (r : reply) : bool :=
  match r with
  | Restored | Submitted _ => true
  | _ => false
  end.

Definition status (r : reply) : Z :=
  match r with
  | Restored | Submitted _ => 200
  | NoFileProvided | NoFileSelected | InvalidFileFormat | SubmitFailed _ => 400
  | RestoreFailed _ => 500
  end.

Section Persistence.
Context {F : Type} `{Amount F}.

(** [f(x) if x else None] in a dict that is dumped; also a nullable column
    as it is dumped ([None] is written [null]). *)
Definition or_null {A} (f : A → json F) (o : option A) : json F :=
  match o with Some a => f a | None => JNull end.

(** The dict [backup_data] builds for a leader. *)
Definition leader_json (leader : Leader.t) : json F :=
  JObj (list_to_map [
    ("id", JInt (Leader.id leader));
    ("name", JStr (Leader.name leader));
    ("zone", JStr (Leader.zone leader));
    ("cell_day", or_null JStr (Leader.cell_day leader));
    ("contact_number", or_null JStr (Leader.contact_number leader));
    ("email", or_null JStr (Leader.email leader));
    ("address", or_null JStr (Leader.address leader));
    ("profile_picture", or_null JStr (Leader.profile_picture leader));
    ("is_active", or_null JBool (Leader.is_active leader));
    ("created_at", or_null (λ t, JStr (isoformat t)) (Leader.created_at leader));
    ("updated_at", or_null (λ t, JStr (isoformat t)) (Leader.updated_at leader))
  ]).

(** The dict [backup_data] builds for a service record. *)
Definition record_json (record : ServiceRecord.t F) : json F :=
  JObj (list_to_map [
    ("id", JInt (ServiceRecord.id record));
    ("leader_id", JInt (ServiceRecord.leader_id record));
    ("service_type", JStr (ServiceRecord.service_type record));
    ("service_date", JStr (date_isoformat (ServiceRecord.service_date record)));
    ("sunday_attendance", or_null JInt (ServiceRecord.sunday_attendance record));
    ("sunday_visitors", or_null JInt (ServiceRecord.sunday_visitors record));
    ("cell_attendance", or_null JInt (ServiceRecord.cell_attendance record));
    ("cell_visitors", or_null JInt (ServiceRecord.cell_visitors record));
    ("cell_offering", or_null JNum (ServiceRecord.cell_offering record));
    ("cell_decisions", or_null JInt (ServiceRecord.cell_decisions record));
    ("notes", or_null JStr (ServiceRecord.notes record));
    ("submitted_at",
      or_null (λ t, JStr (isoformat t)) (ServiceRecord.submitted_at record))
  ]).

(** [GET /api/backup-data]: the document that is dumped. *)
Definition backup_data (s : Store F) (now : DateTime.t) : json F :=
  JObj (list_to_map [
    ("timestamp", JStr (isoformat now));
    ("leaders", JArr (leader_json <$> leaders s));
    ("service_records", JArr (record_json <$> service_records s))
  ]).

(** [d[key]] and [d.get(key, default)] on a parsed value. *)
Definition item (d : json F) (key : string) : res (json F) :=
  match d with
  | JObj fields => need (KeyError key) (fields !! key)
  | _ => Raise TypeError
  end.

Definition get (d : json F) (key : string) (dflt : json F) : res (json F) :=
  match d with
  | JObj fields => Ok (default dflt (fields !! key))
  | _ => Raise AttributeError
  end.

(** [if v:]. *)
Definition json_truthy (v : json F) : bool :=
  match v with
  | JNull => false
  | JBool b => b
  | JInt z => negb (z =? 0)
  | JNum f => a_truthy f
  | JStr s => truthy s
  | JArr items => match items with [] => false | _ => true end
  | JObj fields => negb (bool_decide (fields = ∅))
  end.

(** [for entry in v:]: the items of a list, the keys of a dict, the
    characters of a string. *)
Definition iterate (v : json F) : res (list (json F)) :=
  match v with
  | JArr items => Ok items
  | JObj fields => Ok ((λ kv, JStr kv.1) <$> map_to_list fields)
  | JStr s => Ok ((λ c, JStr (String c EmptyString)) <$> list_ascii_of_string s)
  | _ => Raise TypeError
  end.

(** What a column of each type takes from a parsed value.  The tables of
    the model are typed: a value of another type, which a typed store
    refuses when the row is flushed, ends the transaction here. *)
Definition int_column (v : json F) : res (option Z) :=
  match v with
  | JNull => Ok None
  | JInt z => Ok (Some z)
  | JBool b => Ok (Some (if b then 1 else 0))
  | _ => Raise StatementError
  end.

Definition float_column (v : json F) : res (option F) :=
  match v with
  | JNull => Ok None
  | JNum f => Ok (Some f)
  | JInt z => Ok (Some (a_of_Z z))
  | JBool b => Ok (Some (a_of_Z (if b then 1 else 0)))
  | _ => Raise StatementError
  end.

Definition text_column (v : json F) : res (option string) :=
  match v with
  | JNull => Ok None
  | JStr s => Ok (Some s)
  | _ => Raise StatementError
  end.

Definition bool_column (v : json F) : res (option bool) :=
  match v with
  | JNull => Ok None
  | JBool b => Ok (Some b)
  | JInt 0 => Ok (Some false)
  | JInt 1 => Ok (Some true)
  | _ => Raise StatementError
  end.

(** A column declared [nullable=False]. *)
Definition not_null {A} (column : res (option A)) : res A :=
  o ← column; need IntegrityError o.

(** A primary key given by the caller.  (A null key would let the store
    number the row; the model covers the entries that carry their key.) *)
Definition key_column (v : json F) : res Z :=
  match v with
  | JInt z => Ok z
  | _ => Raise StatementError
  end.

(** [datetime.fromisoformat(v)] and [datetime.strptime(v, "%Y-%m-%d")] on
    a parsed value: a string is required. *)
Definition timestamp_of (v : json F) : res DateTime.t :=
  match v with
  | JStr s => fromisoformat s
  | _ => Raise TypeError
  end.

Definition date_of (v : json F) : res Date.t :=
  match v with
  | JStr s => strptime_Ymd s
  | _ => Raise TypeError
  end.

(** [if d.get(key): column = datetime.fromisoformat(d[key])]; otherwise
    the column keeps its default, the time of the insert. *)
Definition restored_stamp (now : DateTime.t) (d : json F) (key : string)
  : res (option DateTime.t) :=
  v ← get d key JNull;
  if json_truthy v then
    w ← item d key;
    t ← timestamp_of w;
    Ok (Some t)
  else Ok (Some now).

(** The body of the first loop of [restore_data]. *)
Definition restore_leader (now : DateTime.t) (leader_data : json F)
  : res Leader.t :=
  name ← item leader_data "name";
  zone ← item leader_data "zone";
  cell_day ← get leader_data "cell_day" (JStr "Thursday");
  contact_number ← get leader_data "contact_number" (JStr "");
  email ← get leader_data "email" (JStr "");
  address ← get leader_data "address" (JStr "");
  profile_picture ← get leader_data "profile_picture" JNull;
  is_active ← get leader_data "is_active" (JBool true);
  id ← item leader_data "id";
  created_at ← restored_stamp now leader_data "created_at";
  updated_at ← restored_stamp now leader_data "updated_at";
  id ← key_column id;
  name ← not_null (text_column name);
  zone ← not_null (text_column zone);
  cell_day ← text_column cell_day;
  contact_number ← text_column contact_number;
  email ← text_column email;
  address ← text_column address;
  profile_picture ← text_column profile_picture;
  is_active ← bool_column is_active;
  Ok (Leader.mk id name zone cell_day contact_number email address
        profile_picture is_active created_at updated_at).

(** The body of the second loop of [restore_data]. *)
Definition restore_record (now : DateTime.t) (record_data : json F)
  : res (ServiceRecord.t F) :=
  leader_id ← item record_data "leader_id";
  service_type ← item record_data "service_type";
  service_date ← item record_data "service_date";
  service_date ← date_of service_date;
  sunday_attendance ← get record_data "sunday_attendance" (JInt 0);
  sunday_visitors ← get record_data "sunday_visitors" (JInt 0);
  cell_attendance ← get record_data "cell_attendance" (JInt 0);
  cell_visitors ← get record_data "cell_visitors" (JInt 0);
  cell_offering ← get record_data "cell_offering" (JNum azero);
  cell_decisions ← get record_data "cell_decisions" (JInt 0);
  notes ← get record_data "notes" (JStr "");
  id ← item record_data "id";
  submitted_at ← restored_stamp now record_data "submitted_at";
  id ← key_column id;
  leader_id ← not_null (int_column leader_id);
  service_type ← not_null (text_column service_type);
  sunday_attendance ← int_column sunday_attendance;
  sunday_visitors ← int_column sunday_visitors;
  cell_attendance ← int_column cell_attendance;
  cell_visitors ← int_column cell_visitors;
  cell_offering ← float_column cell_offering;
  cell_decisions ← int_column cell_decisions;
  notes ← text_column notes;
  Ok (ServiceRecord.mk id leader_id service_type service_date
        sunday_attendance sunday_visitors cell_attendance cell_visitors
        cell_offering cell_decisions notes submitted_at).

(** [db.session.commit()]: the primary keys of a table are distinct.  (The
    foreign key of a record is not checked: SQLite does not enforce it
    unless asked to.) *)
Definition commit (s : Store F) : res (Store F) :=
  if bool_decide (NoDup (Leader.id <$> leaders s))
     && bool_decide (NoDup (ServiceRecord.id <$> service_records s))
  then Ok s else Raise IntegrityError.

(** The transaction of [restore_data], from [json.load] to [commit]: both
    tables are emptied, then filled from the document. *)
Definition restore_transaction (now : DateTime.t) (file : Upload F)
  : res (Store F) :=
  data ← need JSONDecodeError (content file);
  let cleared : Store F := mkStore [] [] in
  leaders_data ← get data "leaders" (JArr []);
  leaders_data ← iterate leaders_data;
  new_leaders ← collect (restore_leader now) leaders_data;
  records_data ← get data "service_records" (JArr []);
  records_data ← iterate records_data;
  new_records ← collect (restore_record now) records_data;
  commit (mkStore (leaders cleared ++ new_leaders)
            (service_records cleared ++ new_records)).

(** [POST /api/restore-data]: the answer and the store afterwards.  An
    exception inside the handler is answered after [rollback]. *)
Definition restore_data (s : Store F) (now : DateTime.t)
    (file : option (Upload F)) : reply * Store F :=
  match file with
  | None => (NoFileProvided, s)
  | Some file =>
      if String.eqb (filename file) "" then (NoFileSelected, s)
      else if truthy (filename file) && endswith (filename file) ".json" then
        match restore_transaction now file with
        | Ok s' => (Restored, s')
        | Raise e => (RestoreFailed e, s)
        end
      else (InvalidFileFormat, s)
  end.

(** The key SQLite gives a row inserted without one: one more than the
    largest in the table. *)
Definition next_id (ids : list Z) : Z := 1 + foldr Z.max 0 ids.

(** [v == text] for a string literal [text]. *)
Definition is_str (v : json F) (text : string) : bool :=
  match v with
  | JStr s => String.eqb s text
  | _ => false
  end.

(** The transaction of [submit_totals]. *)
Definition submit_transaction (s : Store F) (now : DateTime.t) (data : json F)
  : res (Z * Store F) :=
  leader_id ← item data "leader_id";
  service_type ← item data "service_type";
  service_date ← item data "service_date";
  service_date ← date_of service_date;
  notes ← get data "notes" (JStr "");
  kind ← item data "service_type";
  '(sunday_attendance, sunday_visitors, cell_attendance, cell_visitors,
    cell_offering, cell_decisions) ←
    (if is_str kind "sunday" then
       sunday_attendance ← item data "sunday_attendance";
       sunday_visitors ← get data "sunday_visitors" (JInt 0);
       Ok (sunday_attendance, sunday_visitors, JInt 0, JInt 0, JNum azero,
           JInt 0)
     else
       cell_attendance ← item data "cell_attendance";
       cell_visitors ← get data "cell_visitors" (JInt 0);
       cell_offering ← get data "cell_offering" (JNum azero);
       cell_decisions ← get data "cell_decisions" (JInt 0);
       Ok (JInt 0, JInt 0, cell_attendance, cell_visitors, cell_offering,
           cell_decisions));
  leader_id ← not_null (int_column leader_id);
  service_type ← not_null (text_column service_type);
  sunday_attendance ← int_column sunday_attendance;
  sunday_visitors ← int_column sunday_visitors;
  cell_attendance ← int_column cell_attendance;
  cell_visitors ← int_column cell_visitors;
  cell_offering ← float_column cell_offering;
  cell_decisions ← int_column cell_decisions;
  notes ← text_column notes;
  let id := next_id (ServiceRecord.id <$> service_records s) in
  let record :=
    ServiceRecord.mk id leader_id service_type service_date
      sunday_attendance sunday_visitors cell_attendance cell_visitors
      cell_offering cell_decisions notes (Some now) in
  s' ← commit (mkStore (leaders s) (service_records s ++ [record]));
  Ok (id, s').

(** [POST /api/submit-totals] with the JSON body [data]. *)
Definition submit_totals (s : Store F) (now : DateTime.t) (data : json F)
  : reply * Store F :=
  match submit_transaction s now data with
  | Ok (record_id, s') => (Submitted record_id, s')
  | Raise e => (SubmitFailed e, s)
  end.

End Persistence.

(** ** Leader management, search and profile pictures *)

(** [c.lower()] and [c.upper()] on an ASCII character (other bytes are left
    as they are). *)
Definition lower (c : ascii) : ascii :=
  let n := N_of_ascii c in
  if ((65 <=? n) && (n <=? 90))%N then ascii_of_N (n + 32) else c.

Definition upper (c : ascii) : ascii :=
  let n := N_of_ascii c in
  if ((97 <=? n) && (n <=? 122))%N then ascii_of_N (n - 32) else c.

Definition lower_text (s : string) : string :=
  string_of_list_ascii (lower <$> list_ascii_of_string s).

Definition ALLOWED_EXTENSIONS : list string := ["png"; "jpg"; "jpeg"; "gif"].

Definition MAX_CONTENT_LENGTH : Z := 2 * 1024 * 1024.

(** [s.rsplit(".", 1)[1]] when ["." in s]: what follows the last dot. *)
Fixpoint after_last_dot (cs : list ascii) : option (list ascii) :=
  match cs with
  | [] => None
  | c :: cs' =>
      match after_last_dot cs' with
      | Some ext => Some ext
      | None => if bool_decide (c = dot) then Some cs' else None
      end
  end.

Definition allowed_file (filename : string) : bool :=
  match after_last_dot (list_ascii_of_string filename) with
  | Some ext =>
      bool_decide (lower_text (string_of_list_ascii ext) ∈ ALLOWED_EXTENSIONS)
  | None => false
  end.

(** An uploaded picture: the name the client gave it and its length in
    bytes. *)
Record Picture := mkPicture {
  picture_name : string;
  picture_size : Z
}.

(** [save_profile_picture(file, leader_id)] at the clock second [timestamp],
    in the upload folder holding [files]: the name saved under, if any, and
    the folder afterwards. *)
Definition save_profile_picture (file : Picture) (leader_id timestamp : Z)
    (files : gset string) : option string * gset string :=
  if truthy (picture_name file) && allowed_file (picture_name file) then
    let ext :=
      match after_last_dot (list_ascii_of_string (picture_name file)) with
      | Some ext => lower_text (string_of_list_ascii ext)
      | None => ""
      end in
    let filename :=
      "leader_" +:+ pretty leader_id +:+ "_" +:+ pretty timestamp +:+ "." +:+ ext in
    (Some filename, {[filename]} ∪ files)
  else (None, files).

(** [delete_profile_picture(filename)]. *)
Definition delete_profile_picture (filename : option string)
    (files : gset string) : gset string :=
  match filename with
  | Some name => if truthy name then files ∖ {[name]} else files
  | None => files
  end.

(** [Leader.get_profile_picture_url]. *)
Definition get_profile_picture_url (leader : Leader.t) : option string :=
  match Leader.profile_picture leader with
  | Some name =>
      if truthy name then Some ("/static/uploads/profile_pictures/" +:+ name)
      else None
  | None => None
  end.

(** The characters [str.split()] splits at, among the ASCII ones. *)
Definition is_space (c : ascii) : bool :=
  let n := N_of_ascii c in
  (((9 <=? n) && (n <=? 13)) || ((28 <=? n) && (n <=? 32)))%N.

(** [s.split()]: the maximal runs of characters that are not spaces;
    [word] is the run being read. *)
Fixpoint split_words (word : list ascii) (cs : list ascii) : list (list ascii) :=
  match cs with
  | [] => match word with [] => [] | _ => [word] end
  | c :: cs' =>
      if is_space c then
        match word with
        | [] => split_words [] cs'
        | _ => word :: split_words [] cs'
        end
      else split_words (word ++ [c]) cs'
  end.

(** [Leader.get_initials], on an ASCII name. *)
Definition get_initials (leader : Leader.t) : string :=
  string_of_list_ascii
    (flat_map (λ word, match word with c :: _ => [upper c] | [] => [] end)
       (take 2 (split_words [] (list_ascii_of_string (Leader.name leader))))).

(** [text LIKE pattern] as SQLite evaluates it on ASCII text: [%] stands for
    any run of characters, [_] for any one character, and letters match
    whatever their case. *)
Fixpoint like (pattern text : list ascii) : bool :=
  match pattern with
  | [] => match text with [] => true | _ => false end
  | p :: pattern' =>
      if bool_decide (p = "%"%char) then
        (fix skip (rest : list ascii) : bool :=
           like pattern' rest
           || match rest with
              | [] => false
              | _ :: rest' => skip rest'
              end) text
      else
        match text with
        | [] => false
        | c :: text' =>
            (bool_decide (p = "_"%char) || bool_decide (lower p = lower c))
            && like pattern' text'
        end
  end.

(** [column.ilike(f"%{query}%")]. *)
Definition ilike_contains (column query : string) : bool :=
  like ("%"%char :: list_ascii_of_string query ++ ["%"%char])
    (list_ascii_of_string column).

Definition is_active_true (leader : Leader.t) : bool :=
  match Leader.is_active leader with
  | Some true => true
  | _ => false
  end.

Module Found.
(** An entry of [GET /api/search-leaders]. *)
Record t := mk {
  id : Z;
  name : string;
  zone : string;
  cell_day : option string;
  contact_number : option string;
  email : option string;
  profile_picture : option string;
  profile_picture_url : option string;
  initials : string
}.
End Found.

Module Detail.
(** The answer of [GET /api/leader/<id>]. *)
Record t := mk {
  id : Z;
  name : string;
  zone : string;
  cell_day : option string;
  contact_number : option string;
  email : option string;
  address : option string;
  profile_picture : option string;
  profile_picture_url : option string;
  initials : string;
  is_active : option bool
}.
End Detail.

Module Listed.
(** An entry of [GET /api/leaders]. *)
Record t := mk {
  detail : Detail.t;
  total_submissions : Z;
  last_submission : string
}.
End Listed.

Definition found_of (leader : Leader.t) : Found.t :=
  Found.mk (Leader.id leader) (Leader.name leader) (Leader.zone leader)
    (Leader.cell_day leader) (Leader.contact_number leader)
    (Leader.email leader) (Leader.profile_picture leader)
    (get_profile_picture_url leader) (get_initials leader).

Definition detail_of (leader : Leader.t) : Detail.t :=
  Detail.mk (Leader.id leader) (Leader.name leader) (Leader.zone leader)
    (Leader.cell_day leader) (Leader.contact_number leader)
    (Leader.email leader) (Leader.address leader)
    (Leader.profile_picture leader) (get_profile_picture_url leader)
    (get_initials leader) (Leader.is_active leader).

(** [max(stamps)] from the first item on; comparing with [None] raises. *)
Fixpoint max_from (best : option DateTime.t) (stamps : list (option DateTime.t))
  : res (option DateTime.t) :=
  match stamps with
  | [] => Ok best
  | stamp :: stamps' =>
      match stamp, best with
      | Some a, Some b =>
          if lex_leb (datetime_fields a) (datetime_fields b)
          then max_from best stamps'
          else max_from stamp stamps'
      | _, _ => Raise TypeError
      end
  end.

(** How the answers of the leader handlers fail: the 404 of [get_or_404],
    or an exception. *)
Inductive cause :=
| NotFound
| Raised (e : exn).

(** The answers of the handlers that change a leader or its picture. *)
Inductive leader_reply :=
| LeaderCreated (leader_id : Z)                 (* 200, success: true *)
| LeaderUpdated                                 (* 200, success: true *)
| PictureUploaded (filename url : string)       (* 200, success: true *)
| PictureRemoved                                (* 200, success: true *)
| Refused (status : Z) (message : string)       (* success: false *)
| Failed (status : Z) (why : cause).            (* success: false, after rollback *)

Definition leader_success (r : leader_reply) : bool :=
  match r with
  | LeaderCreated _ | LeaderUpdated | PictureUploaded _ _ | PictureRemoved => true
  | Refused _ _ | Failed _ _ => false
  end.

(** The counters of [GET /api/stats/overview]. *)
Record Counters (F : Type) := mkCounters {
  total_submissions : Z;
  total_leaders : Z;
  recent_count : Z;
  offering_sum : F
}.
Arguments mkCounters {F}.
Arguments total_submissions {F}.
Arguments total_leaders {F}.
Arguments recent_count {F}.
Arguments offering_sum {F}.

Definition SA_ZONES : list string := ["Chestnut"; "KB South"; "KB North"].

Definition CELL_DAYS : list string :=
  ["Monday"; "Tuesday"; "Wednesday"; "Thursday"; "Friday"].

Section Leaders.
Context {F : Type} `{Amount F}.

(** [Leader.query.get(leader_id)]. *)
Definition leader_by_id (s : Store F) (leader_id : Z) : option Leader.t :=
  List.find (λ l, Leader.id l =? leader_id) (leaders s).

(** [leader.service_records]. *)
Definition records_of (s : Store F) (leader : Leader.t) : list (ServiceRecord.t F) :=
  List.filter (λ r, ServiceRecord.leader_id r =? Leader.id leader)
    (service_records s).

(** [GET /api/search-leaders].  (The query has no [ORDER BY]: the rows come
    in the order of the table.) *)
Definition search_leaders (s : Store F) (q_arg : option string) : list Found.t :=
  let query := lower_text (default "" q_arg) in
  let found :=
    if truthy query then
      take 10
        (List.filter
           (λ l, (ilike_contains (Leader.name l) query
                  || ilike_contains (Leader.zone l) query)
                 && is_active_true l)
           (leaders s))
    else take 5 (List.filter is_active_true (leaders s)) in
  found_of <$> found.

(** The entry of [get_leaders] for one leader. *)
Definition listed_of (s : Store F) (leader : Leader.t) : res Listed.t :=
  let records := records_of s leader in
  last_submission ←
    match ServiceRecord.submitted_at <$> records with
    | [] => Ok "Never"
    | first :: rest =>
        latest ← max_from first rest;
        latest ← need AttributeError latest;
        Ok (strftime_Ymd (DateTime.date latest))
    end;
  Ok (Listed.mk (detail_of leader) (Z.of_nat (length records)) last_submission).

(** [GET /api/leaders]. *)
Definition get_leaders (s : Store F) (zone_arg active_only_arg : option string)
  : res (list Listed.t) :=
  let zone_filter := default "" zone_arg in
  let active_only := String.eqb (default "true" active_only_arg) "true" in
  let selected :=
    merge_sort (λ a b, String.leb (Leader.name a) (Leader.name b))
      (List.filter
         (λ l, (if truthy zone_filter
                then String.eqb (Leader.zone l) zone_filter else true)
               && (if active_only then is_active_true l else true))
         (leaders s)) in
  collect (listed_of s) selected.

(** [GET /api/leader/<id>]; [None] is the 404. *)
Definition get_leader (s : Store F) (leader_id : Z) : option Detail.t :=
  detail_of <$> leader_by_id s leader_id.

(** The transaction of [create_leader]. *)
Definition create_transaction (s : Store F) (now : DateTime.t) (data : json F)
  : res (Z * Store F) :=
  name ← item data "name";
  zone ← item data "zone";
  cell_day ← get data "cell_day" (JStr "Thursday");
  contact_number ← get data "contact_number" (JStr "");
  email ← get data "email" (JStr "");
  address ← get data "address" (JStr "");
  profile_picture ← get data "profile_picture" JNull;
  name ← not_null (text_column name);
  zone ← not_null (text_column zone);
  cell_day ← text_column cell_day;
  contact_number ← text_column contact_number;
  email ← text_column email;
  address ← text_column address;
  profile_picture ← text_column profile_picture;
  let id := next_id (Leader.id <$> leaders s) in
  let leader :=
    Leader.mk id name zone cell_day contact_number email address
      profile_picture (Some true) (Some now) (Some now) in
  s' ← commit (mkStore (leaders s ++ [leader]) (service_records s));
  Ok (id, s').

(** [POST /api/leader] with the JSON body [data]. *)
Definition create_leader (s : Store F) (now : DateTime.t) (data : json F)
  : leader_reply * Store F :=
  match create_transaction s now data with
  | Ok (leader_id, s') => (LeaderCreated leader_id, s')
  | Raise e => (Failed 400 (Raised e), s)
  end.

(** The row of [leader_id] replaced by [leader]. *)
Definition put_leader (s : Store F) (leader : Leader.t) : Store F :=
  mkStore
    ((λ l, if Leader.id l =? Leader.id leader then leader else l) <$> leaders s)
    (service_records s).

(** The assignments of [update_leader] on the row it found. *)
Definition update_transaction (s : Store F) (now : DateTime.t)
    (leader : Leader.t) (data : json F) : res (Store F) :=
  name ← item data "name";
  zone ← item data "zone";
  cell_day ← get data "cell_day" (or_null JStr (Leader.cell_day leader));
  contact_number ← get data "contact_number" (JStr "");
  email ← get data "email" (JStr "");
  address ← get data "address" (JStr "");
  is_active ← get data "is_active" (JBool true);
  name ← not_null (text_column name);
  zone ← not_null (text_column zone);
  cell_day ← text_column cell_day;
  contact_number ← text_column contact_number;
  email ← text_column email;
  address ← text_column address;
  is_active ← bool_column is_active;
  commit
    (put_leader s
       (Leader.mk (Leader.id leader) name zone cell_day contact_number email
          address (Leader.profile_picture leader) is_active
          (Leader.created_at leader) (Some now))).

(** [PUT /api/leader/<id>]: the 404 of [get_or_404] is raised inside the
    [try] and answered like any exception. *)
Definition update_leader (s : Store F) (now : DateTime.t) (leader_id : Z)
    (data : json F) : leader_reply * Store F :=
  match leader_by_id s leader_id with
  | None => (Failed 400 NotFound, s)
  | Some leader =>
      match update_transaction s now leader data with
      | Ok s' => (LeaderUpdated, s')
      | Raise e => (Failed 400 (Raised e), s)
      end
  end.

(** [POST /api/leader/<id>/upload-picture]: the answer, the store and the
    upload folder afterwards.  (The limit the framework itself puts on the
    request body is not part of the handler.) *)
Definition upload_leader_picture (s : Store F) (files : gset string)
    (now : DateTime.t) (timestamp leader_id : Z) (file : option Picture)
  : leader_reply * Store F * gset string :=
  match leader_by_id s leader_id with
  | None => (Failed 500 NotFound, s, files)
  | Some leader =>
      match file with
      | None => (Refused 400 "No file provided", s, files)
      | Some file =>
          if String.eqb (picture_name file) "" then
            (Refused 400 "No file selected", s, files)
          else if MAX_CONTENT_LENGTH <? picture_size file then
            (Refused 400 "File too large. Maximum 2MB allowed.", s, files)
          else
            let files :=
              match Leader.profile_picture leader with
              | Some old =>
                  if truthy old
                  then delete_profile_picture (Leader.profile_picture leader) files
                  else files
              | None => files
              end in
            match save_profile_picture file leader_id timestamp files with
            | (Some filename, files) =>
                match
                  commit
                    (put_leader s
                       (Leader.mk (Leader.id leader) (Leader.name leader)
                          (Leader.zone leader) (Leader.cell_day leader)
                          (Leader.contact_number leader) (Leader.email leader)
                          (Leader.address leader) (Some filename)
                          (Leader.is_active leader) (Leader.created_at leader)
                          (Some now)))
                with
                | Ok s' =>
                    (PictureUploaded filename
                       ("/static/uploads/profile_pictures/" +:+ filename),
                     s', files)
                | Raise e => (Failed 500 (Raised e), s, files)
                end
            | (None, files) =>
                (Refused 400 "Invalid file type. Allowed: PNG, JPG, JPEG, GIF",
                 s, files)
            end
      end
  end.

(** [POST /api/leader/<id>/remove-picture]. *)
Definition remove_leader_picture (s : Store F) (files : gset string)
    (now : DateTime.t) (leader_id : Z) : leader_reply * Store F * gset string :=
  match leader_by_id s leader_id with
  | None => (Failed 500 NotFound, s, files)
  | Some leader =>
      match Leader.profile_picture leader with
      | Some old =>
          if truthy old then
            let files := delete_profile_picture (Leader.profile_picture leader) files in
            match
              commit
                (put_leader s
                   (Leader.mk (Leader.id leader) (Leader.name leader)
                      (Leader.zone leader) (Leader.cell_day leader)
                      (Leader.contact_number leader) (Leader.email leader)
                      (Leader.address leader) None (Leader.is_active leader)
                      (Leader.created_at leader) (Some now)))
            with
            | Ok s' => (PictureRemoved, s', files)
            | Raise e => (Failed 500 (Raised e), s, files)
            end
          else (PictureRemoved, s, files)
      | None => (PictureRemoved, s, files)
      end
  end.

(** [db.func.sum(ServiceRecord.cell_offering)]: NULL when no row has an
    offering; the rows that have one are added up whatever their type. *)
Definition sql_sum (amounts : list (option F)) : option F :=
  match omap id amounts with
  | [] => None
  | present => Some (foldl aadd azero present)
  end.

(** [GET /api/stats/overview]. *)
Definition stats_overview (s : Store F) (today : Date.t) : Counters F :=
  let week_ago := date_sub_days today 7 in
  mkCounters
    (Z.of_nat (length (service_records s)))
    (Z.of_nat (length (List.filter is_active_true (leaders s))))
    (Z.of_nat
       (length
          (List.filter
             (λ r, date_leb week_ago (ServiceRecord.service_date r))
             (service_records s))))
    (match sql_sum (ServiceRecord.cell_offering <$> service_records s) with
     | Some total => if a_truthy total then total else azero
     | None => azero
     end).

(** The leader [seed_database] creates for [i]. *)
Definition seed_leader (now : DateTime.t) (i : Z) : Leader.t :=
  let zone := default "" (SA_ZONES !! Z.to_nat ((i - 1) mod 3)) in
  Leader.mk i
    ("Leader " +:+ pretty i)
    zone
    (CELL_DAYS !! Z.to_nat (i mod 5))
    (Some ("+27 " +:+ pretty (70 + i mod 30) +:+ " " +:+ pretty (100 + i mod 900)
           +:+ " " +:+ pretty (1000 + i mod 9000)))
    (Some ("leader" +:+ pretty i +:+ "@church.org.za"))
    (Some (pretty (i * 10) +:+ " Main Street, " +:+ zone +:+ ", South Africa"))
    None (Some true) (Some now) (Some now).

(** [GET /seed-database]: both tables are emptied, then thirty leaders are
    inserted, which the empty table numbers from 1. *)
Definition seed_database (s : Store F) (now : DateTime.t) : Store F :=
  mkStore (seed_leader now <$> ((λ k, Z.of_nat k + 1) <$> seq 0 30)) [].

End Leaders.

(** * The vocabulary of the properties *)

Section Statements.
Context {F : Type} `{Amount F}.

(** ** Sums over the groups of a result *)

(** One integer field added up over the groups of a dict (its items) or
    over the buckets of the trends. *)
Definition group_ints (field : Stats.t F → Z)
    (groups : list (string * Stats.t F)) : Z :=
  foldl Z.add 0 ((λ kv, field kv.2) <$> groups).




(** A field of the groups of a dict, folded with [op] from [e]. *)
Definition field_total {M : Type} (op : M → M → M) (e : M)
    (field : Stats.t F → M) (groups : gmap string (Stats.t F)) : M :=
  foldl op e ((λ kv, field kv.2) <$> map_to_list groups).

(** ** The rows of the export *)

(** The header as the specification words it. *)
Definition spec_header : list (cell F) :=
  [CText "ID"; CText "Leader Name"; CText "Zone"; CText "Service Type";
   CText "Service Date"; CText "Attendance"; CText "Visitors";
   CText "Offering"; CText "Decisions"; CText "Notes"; CText "Submitted At"].

(** The effective offering and decisions of a record, as fields of a row:
    the cell columns of a cell meeting, the integer 0 otherwise. *)
Definition effective_offering_cell (record : ServiceRecord.t F) : cell F :=
  if is_cell record then amount_cell (ServiceRecord.cell_offering record)
  else CInt 0.

Definition effective_decisions_cell (record : ServiceRecord.t F) : cell F :=
  if is_cell record then int_cell (ServiceRecord.cell_decisions record)
  else CInt 0.

(** A line of the export is the line of [row]. *)
Definition line_of (row : Row F) (line : list (cell F)) : Prop :=
  ∃ submitted_at offering decisions,
    ServiceRecord.submitted_at row.1 = Some submitted_at
    ∧ line = [CInt (ServiceRecord.id row.1);
              CText (Leader.name row.2);
              CText (Leader.zone row.2);
              CText (ServiceRecord.service_type row.1);
              CText (strftime_Ymd (ServiceRecord.service_date row.1));
              int_cell (attendance_of row.1);
              int_cell (visitors_of row.1);
              offering; decisions;
              CText (default "" (ServiceRecord.notes row.1));
              CText (strftime_YmdHM submitted_at)]
    ∧ (is_sunday row.1 || is_cell row.1 = true →
       offering = effective_offering_cell row.1
       ∧ decisions = effective_decisions_cell row.1)
    ∧ (ServiceRecord.notes row.1 = None → line !! 9%nat = Some (CText "")).

(** ** Uploads that are refused *)

(** The fields the loops of [restore_data] read with [entry[key]]. *)
Definition leader_required : list string := ["name"; "zone"; "id"].

Definition record_required : list string :=
  ["leader_id"; "service_type"; "service_date"; "id"].

(** An entry that lacks one of [keys]. *)
Definition lacks_field (keys : list string) (entry : json F) : Prop :=
  ∃ fields key, entry = JObj fields ∧ key ∈ keys ∧ fields !! key = None.

(** A document one of whose entries lacks a required field. *)
Definition entry_lacks_field (doc : json F) : Prop :=
  ∃ top, doc = JObj top
    ∧ ((∃ entries entry,
          top !! "leaders" = Some (JArr entries) ∧ entry ∈ entries
          ∧ lacks_field leader_required entry)
       ∨ (∃ entries entry,
            top !! "service_records" = Some (JArr entries) ∧ entry ∈ entries
            ∧ lacks_field record_required entry)).

(** An upload that [restore_data] has to refuse. *)
Definition unacceptable (file : Upload F) : Prop :=
  endswith (filename file) ".json" = false
  ∨ content file = None
  ∨ ∃ doc, content file = Some doc ∧ entry_lacks_field doc.

(** ** Submissions *)

(** [key in data], and the value the handler reads or defaults to. *)
Definition has_key (data : json F) (key : string) : bool :=
  match data with
  | JObj fields => bool_decide (is_Some (fields !! key))
  | _ => false
  end.

Definition value_of (data : json F) (key : string) (dflt : json F) : json F :=
  match data with
  | JObj fields => default dflt (fields !! key)
  | _ => dflt
  end.





(** The primary keys of each table are distinct. *)
Definition keys_distinct (s : Store F) : Prop :=
  NoDup (Leader.id <$> leaders s)
  ∧ NoDup (ServiceRecord.id <$> service_records s).

(** ** Stores and their backups *)








(** The backup of [s] taken at [now], uploaded under the name it is
    downloaded with. *)
Definition backup_upload (s : Store F) (now : DateTime.t) : Upload F :=
  mkUpload "church_backup.json" (Some (backup_data s now)).

End Statements.

(** ** Searching and creating leaders *)

(** A query without the wildcards of [LIKE]. *)
Definition plain (query : string) : Prop :=
  Forall (λ c, c ≠ "%"%char ∧ c ≠ "_"%char) (list_ascii_of_string query).



Section LeaderStatements.
Context {F : Type} `{Amount F}.

Definition is_null (v : json F) : bool :=
  match v with JNull => true | _ => false end.

(** A body without a name or without a zone: the key is not there, or its
    value is [null]. *)
Definition unnamed (data : json F) : bool :=
  is_null (value_of data "name" JNull) || is_null (value_of data "zone" JNull).

(** A body that [create_leader] can store: [name] and [zone] are there,
    and every value the handler reads is one its column takes. *)
Definition describes_leader (data : json F) : bool :=
  has_key data "name" && has_key data "zone"
  && is_ok (not_null (text_column (value_of data "name" JNull)))
  && is_ok (not_null (text_column (value_of data "zone" JNull)))
  && is_ok (text_column (value_of data "cell_day" (JStr "Thursday")))
  && is_ok (text_column (value_of data "contact_number" (JStr "")))
  && is_ok (text_column (value_of data "email" (JStr "")))
  && is_ok (text_column (value_of data "address" (JStr "")))
  && is_ok (text_column (value_of data "profile_picture" JNull)).

End LeaderStatements.

(** ** Example data *)

Definition stamp_a : DateTime.t := DateTime.mk (Date.mk 2024 1 4) 9 5 0 1500.
Definition stamp_b : DateTime.t := DateTime.mk (Date.mk 2024 1 8) 18 30 0 0.

Definition leader_one : Leader.t :=
  Leader.mk 1 "Leader 1" "Chestnut" (Some "Thursday") (Some "") (Some "")
    (Some "") None (Some true) (Some stamp_a) (Some stamp_a).

Definition leader_two : Leader.t :=
  Leader.mk 2 "Leader 2" "KB South" (Some "Friday") (Some "") (Some "")
    (Some "") None (Some true) (Some stamp_a) (Some stamp_b).

(** A cell meeting of [leader] on [date] with the given offering. *)
Definition cell_meeting {F} (id leader : Z) (date : Date.t) (offering : F)
  : ServiceRecord.t F :=
  ServiceRecord.mk id leader "cell" date (Some 0) (Some 0) (Some 20) (Some 3)
    (Some offering) (Some 2) (Some "") (Some stamp_a).

Definition sunday_service {F} `{Amount F} (id leader : Z) (date : Date.t)
  : ServiceRecord.t F :=
  ServiceRecord.mk id leader "sunday" date (Some 50) (Some 5) (Some 0) (Some 0)
    (Some azero) (Some 0) None (Some stamp_b).

(** Three cell meetings in two zones and on two days, with binary64
    offerings whose running sum is exact (each partial sum is a binary64
    number) while the sum of the first and the third is not. *)
Definition rounding_store : Store float :=
  mkStore [leader_one; leader_two]
    [cell_meeting 1 1 (Date.mk 2024 1 4) 9007199254740991%float;
     cell_meeting 2 2 (Date.mk 2024 1 5) 1%float;
     cell_meeting 3 1 (Date.mk 2024 1 4) 2%float].

(** Three cell meetings and a Sunday service, with amounts counted exactly
    (in cents). *)
Definition exact_store : Store Z :=
  mkStore [leader_one; leader_two]
    [cell_meeting 1 1 (Date.mk 2024 1 4) 15050;
     cell_meeting 2 2 (Date.mk 2024 1 5) 100;
     cell_meeting 3 1 (Date.mk 2024 1 4) 200;
     sunday_service 4 2 (Date.mk 2024 1 7)].

Definition a_monday : Date.t := Date.mk 2024 1 8.

(** The same meetings and service with binary64 amounts, as the program
    holds them. *)
Definition sample_store : Store float :=
  mkStore [leader_one; leader_two]
    [cell_meeting 1 1 (Date.mk 2024 1 4) 150.5%float;
     cell_meeting 2 2 (Date.mk 2024 1 5) 1%float;
     cell_meeting 3 1 (Date.mk 2024 1 4) 2%float;
     sunday_service 4 2 (Date.mk 2024 1 7)].


(** A Sunday service whose cell columns are not at their defaults. *)
Definition odd_sunday : ServiceRecord.t float :=
  ServiceRecord.mk 9 1 "sunday" (Date.mk 2024 1 7) (Some 50) (Some 5) (Some 12)
    (Some 4) (Some 999.5%float) (Some 7) None (Some stamp_b).

(** A document whose second leader has no zone, under a good file name. *)
Definition zoneless_upload : Upload float :=
  mkUpload "church_backup.json"
    (Some (JObj (list_to_map [
       ("leaders",
        JArr [leader_json leader_one;
              JObj (list_to_map [("id", JInt 2); ("name", JStr "Leader 2")])]);
       ("service_records", JArr [])]))).


Definition full_cell : json float :=
  JObj (list_to_map [
    ("leader_id", JInt 1);
    ("service_type", JStr "cell");
    ("service_date", JStr "2024-01-04");
    ("cell_attendance", JInt 20);
    ("cell_visitors", JInt 3);
    ("cell_offering", JNum 150.5%float);
    ("cell_decisions", JInt 2)]).

(** A cell submission for a leader that does not exist. *)
Definition stray_cell : json float :=
  JObj (list_to_map [
    ("leader_id", JInt 99);
    ("service_type", JStr "cell");
    ("service_date", JStr "2024-01-04");
    ("cell_attendance", JInt 20)]).

(** A first leader who is not active and has a picture, and the folder
    that holds it. *)
Definition portrait : string := "leader_1_1700000000.png".

Definition leader_pictured : Leader.t :=
  Leader.mk 1 "Leader 1" "Chestnut" (Some "Monday") (Some "+27 71 101 1001")
    (Some "leader1@church.org.za") (Some "10 Main Street") (Some portrait)
    (Some false) (Some stamp_a) (Some stamp_a).

Definition pictured_store : Store float :=
  mkStore [leader_pictured; leader_two]
    [cell_meeting 1 1 (Date.mk 2024 1 4) 150.5%float].

Definition pictured_folder : gset string := {[portrait]}.

(** The body of a request that names a new leader. *)
Definition third_leader : json float :=
  JObj (list_to_map [("name", JStr "Leader 3"); ("zone", JStr "KB North")]).

(** * Properties *)

(** ** The calendar functions on sample dates *)

Example sub_days_ex1 : date_sub_days (Date.mk 2024 1 4) 7 = Date.mk 2023 12 28.
Proof. reflexivity. Qed.
Example sub_days_ex2 : date_sub_days (Date.mk 2024 3 1) 7 = Date.mk 2024 2 23.
Proof. reflexivity. Qed.
Example sub_days_ex3 : date_sub_days (Date.mk 2024 12 31) 365 = Date.mk 2024 1 1.
Proof. reflexivity. Qed.
Example sub_days_ex4 : date_sub_days (Date.mk 2025 3 1) 30 = Date.mk 2025 1 30.
Proof. reflexivity. Qed.
Example strptime_ex1 : strptime_Ymd "2024-01-04" = Ok (Date.mk 2024 1 4).
Proof. reflexivity. Qed.
Example strptime_ex2 : strptime_Ymd "2024-1-4" = Ok (Date.mk 2024 1 4).
Proof. reflexivity. Qed.
Example strptime_ex3 : strptime_Ymd "2023-02-29" = Raise ValueError.
Proof. reflexivity. Qed.
Example strptime_ex4 : strptime_Ymd "04/01/2024" = Raise ValueError.
Proof. reflexivity. Qed.
Example strftime_ex1 : strftime_Ym (Date.mk 2024 1 4) = "2024-01".
Proof. reflexivity. Qed.

Example isoformat_ex1 :
  isoformat (DateTime.mk (Date.mk 2024 1 4) 9 5 0 0) = "2024-01-04T09:05:00".
Proof. reflexivity. Qed.
Example isoformat_ex2 :
  isoformat (DateTime.mk (Date.mk 2024 1 4) 9 5 0 1500) = "2024-01-04T09:05:00.001500".
Proof. reflexivity. Qed.
Example fromisoformat_ex1 :
  fromisoformat "2024-01-04T09:05:00.001500"
  = Ok (DateTime.mk (Date.mk 2024 1 4) 9 5 0 1500).
Proof. reflexivity. Qed.
Example fromisoformat_ex2 : fromisoformat "yesterday" = Raise ValueError.
Proof. reflexivity. Qed.

(** ** Tactics for the steps of a handler *)

(** Splits an equation [(x ← m; k) = Ok r] on the result of [m]. *)
Ltac ok_step H x E :=
  match type of H with
  | mbind _ ?m = Ok _ =>
      destruct m as [x|] eqn:E; simpl in H; [|discriminate H]
  end.

(** Splits an equation [(x ← m; k) = Ok r] on the result of [m], leaving
    the rest of [k] folded. *)
Ltac ok_next H x E :=
  match type of H with
  | mbind _ ?m = Ok _ =>
      destruct m as [x|] eqn:E; cbn [mbind res_bind] in H; [|discriminate H]
  end.

(** The cases of a key in a given list. *)
Ltac key_cases Hkey :=
  repeat (apply elem_of_cons in Hkey as [->|Hkey]; [congruence|]);
  by apply elem_of_nil in Hkey.

(** ** Folding a commutative monoid *)

Section Folding.
Context {M : Type} (op : M → M → M) (e : M).
Hypothesis op_assoc : ∀ a b c, op a (op b c) = op (op a b) c.
Hypothesis op_comm : ∀ a b, op a b = op b a.
Hypothesis op_unit : ∀ a, op e a = a.

Lemma foldl_op_acc (l : list M) a x : foldl op (op a x) l = op (foldl op a l) x.
Proof using op_assoc op_comm.
  revert a. induction l as [|y l IH]; intros a; simpl; [done|].
  rewrite <- IH. f_equal.
  rewrite <- !op_assoc. f_equal. apply op_comm.
Qed.

Lemma foldl_op_perm (l1 l2 : list M) a : l1 ≡ₚ l2 → foldl op a l1 = foldl op a l2.
Proof using op_assoc op_comm.
  intros Hp. revert a.
  induction Hp as [|x l1 l2 _ IH|x y l|l1 l2 l3 _ IH1 _ IH2]; intros a; simpl.
  - done.
  - apply IH.
  - f_equal. rewrite <- !op_assoc. f_equal. apply op_comm.
  - by rewrite IH1.
Qed.

Lemma op_unit_r a : op a e = a.
Proof using op_comm op_unit. rewrite op_comm. apply op_unit. Qed.

(** *** A field of the groups, through a grouping loop *)

Context {F : Type} `{Amount F}.
Variable field : Stats.t F → M.
Variable reading : ServiceRecord.t F → option M.
Hypothesis field_zero : field no_stats = e.
Hypothesis field_step : ∀ r g g',
  add_record r g = Ok g' →
  ∃ x, reading r = Some x ∧ field g' = op (field g) x.

Local Abbreviation over := (field_total op e field).

Lemma over_empty : over ∅ = e.
Proof. unfold field_total. by rewrite map_to_list_empty. Qed.

Lemma over_insert_fresh (groups : gmap string (Stats.t F)) key g :
  groups !! key = None → over (<[key := g]> groups) = op (over groups) (field g).
Proof using op_assoc op_comm.
  intros Hk. unfold field_total.
  rewrite (foldl_op_perm _ ((λ kv, field kv.2) <$> ((key, g) :: map_to_list groups))).
  - simpl. apply foldl_op_acc.
  - apply fmap_Permutation. by apply map_to_list_insert.
Qed.

Lemma over_group_step key r (groups groups' : gmap string (Stats.t F)) :
  group_step key r groups = Ok groups' →
  ∃ x, reading r = Some x ∧ over groups' = op (over groups) x.
Proof using All.
  unfold group_step. intros Hs.
  destruct (add_record r (default no_stats (groups !! key))) as [g'|] eqn:Ha;
    simpl in Hs; [|discriminate].
  injection Hs as <-.
  destruct (field_step _ _ _ Ha) as (x & Hx & Hg').
  exists x. split; [done|].
  destruct (groups !! key) as [g|] eqn:Hk; simpl in Hg'.
  - rewrite <- insert_delete_eq.
    rewrite over_insert_fresh by apply lookup_delete_eq.
    rewrite Hg', op_assoc. f_equal.
    rewrite <- (over_insert_fresh (delete key groups) key g)
      by apply lookup_delete_eq.
    by rewrite insert_delete_id.
  - rewrite over_insert_fresh by done.
    by rewrite Hg', field_zero, op_unit.
Qed.

Lemma over_loop (key : Row F → string) (rows : list (Row F))
    (groups groups' : gmap string (Stats.t F)) :
  for_each (λ m row, group_step (key row) row.1 m) rows groups = Ok groups' →
  ∃ xs, (λ row : Row F, reading row.1) <$> rows = Some <$> xs
        ∧ over groups' = foldl op (over groups) xs.
Proof using All.
  revert groups. induction rows as [|row rows IH]; intros groups Hl; simpl in Hl.
  - injection Hl as <-. by exists [].
  - destruct (group_step (key row) row.1 groups) as [m1|] eqn:Hs;
      simpl in Hl; [|discriminate].
    destruct (over_group_step _ _ _ _ Hs) as (x & Hx & Ho).
    destruct (IH _ Hl) as (xs & Hxs & Hov).
    exists (x :: xs). split.
    + rewrite !fmap_cons. by rewrite Hx, Hxs.
    + simpl. by rewrite Hov, Ho.
Qed.

(** A reading that is a cell column for a cell meeting and the unit
    otherwise adds up to the sum of the column over the cell meetings. *)
Lemma cell_readings (column : ServiceRecord.t F → option M)
    (rows : list (Row F)) xs ys a :
  (∀ r, reading r = if is_cell r then column r else Some e) →
  (λ row : Row F, reading row.1) <$> rows = Some <$> xs →
  (λ row : Row F, column row.1) <$> List.filter (λ row : Row F, is_cell row.1) rows
    = Some <$> ys →
  foldl op a ys = foldl op a xs.
Proof using op_comm op_unit op_assoc.
  intros Hr. revert xs ys a.
  induction rows as [|row rows IH]; intros xs ys a Hxs Hys; simpl in *.
  - destruct xs; [|done]. by destruct ys.
  - destruct xs as [|x xs]; [done|].
    rewrite !fmap_cons in Hxs. injection Hxs as Hx Hxs.
    rewrite Hr in Hx.
    destruct (is_cell row.1); simpl in *.
    + destruct ys as [|y ys]; [done|].
      rewrite !fmap_cons in Hys. injection Hys as Hy Hys.
      assert (x = y) as -> by congruence. simpl. by apply IH.
    + injection Hx as <-. simpl. rewrite op_unit_r. by apply IH.
Qed.

End Folding.

Section AggregationFacts.
Context {F : Type} `{Amount F}.

Lemma need_ok {A} e (o : option A) a : need e o = Ok a → o = Some a.
Proof. destruct o; simpl; congruence. Qed.

Lemma add_record_inv (r : ServiceRecord.t F) g g' :
  add_record r g = Ok g' →
  ∃ a v o d,
    attendance_of r = Some a ∧ visitors_of r = Some v
    ∧ offering_of r = Some o ∧ decisions_of r = Some d
    ∧ g' = Stats.mk (Stats.attendance g + a) (Stats.visitors g + v)
             (aadd (Stats.offering g) o) (Stats.decisions g + d)
             (Stats.services g + 1).
Proof.
  unfold add_record. intros Hg.
  ok_step Hg a Ea. ok_step Hg v Ev. ok_step Hg o Eo. ok_step Hg d Ed.
  injection Hg as <-.
  exists a, v, o, d. eauto 10 using need_ok.
Qed.

Lemma add_record_total (r : ServiceRecord.t F) g :
  is_Some (attendance_of r) → is_Some (visitors_of r) →
  is_Some (offering_of r) → is_Some (decisions_of r) →
  is_ok (add_record r g) = true.
Proof.
  intros [a Ha] [v Hv] [o Ho] [d Hd]. unfold add_record.
  by rewrite Ha, Hv, Ho, Hd.
Qed.

(** [sum(...)] adds from the left. *)
Lemma sum_loop_inv {M} (op : M → M → M) (xs : list (option M)) a t :
  for_each (λ acc x, v ← need TypeError x; Ok (op acc v)) xs a = Ok t →
  ∃ vs, xs = Some <$> vs ∧ t = foldl op a vs.
Proof.
  revert a. induction xs as [|x xs IH]; intros a Hs; simpl in Hs.
  - injection Hs as <-. by exists [].
  - destruct x as [v|]; simpl in Hs; [|discriminate].
    destruct (IH _ Hs) as (vs & -> & ->). by exists (v :: vs).
Qed.

Lemma sum_loop_total {M} (op : M → M → M) (vs : list M) a :
  for_each (λ acc x, v ← need TypeError x; Ok (op acc v)) (Some <$> vs) a
  = Ok (foldl op a vs).
Proof. revert a. induction vs as [|v vs IH]; intros a; simpl; [done|apply IH]. Qed.

Lemma sum_ints_inv (xs : list (option Z)) t :
  sum_ints xs = Ok t → ∃ vs, xs = Some <$> vs ∧ t = foldl Z.add 0 vs.
Proof. apply sum_loop_inv. Qed.

Lemma sum_amounts_inv (xs : list (option F)) t :
  sum_amounts xs = Ok t → ∃ vs, xs = Some <$> vs ∧ t = foldl aadd azero vs.
Proof. apply sum_loop_inv. Qed.

Lemma Some_fmap_inj {A} (xs ys : list A) : Some <$> xs = Some <$> ys → xs = ys.
Proof.
  revert ys. induction xs as [|x xs IH]; intros [|y ys] Heq; try done.
  rewrite !fmap_cons in Heq. injection Heq as -> Heq. f_equal. by apply IH.
Qed.

(** The integer fields of the groups: each is the left sum of the
    readings the loop added. *)
Lemma group_ints_loop (field : Stats.t F → Z) (reading : ServiceRecord.t F → option Z)
    (key : Row F → string) (rows : list (Row F)) groups xs :
  field no_stats = 0 →
  (∀ r g g', add_record r g = Ok g' →
     ∃ x, reading r = Some x ∧ field g' = field g + x) →
  for_each (λ m row, group_step (key row) row.1 m) rows ∅ = Ok groups →
  (λ row : Row F, reading row.1) <$> rows = Some <$> xs →
  group_ints field (map_to_list groups) = foldl Z.add 0 xs.
Proof.
  intros Hz Hs Hl Hxs.
  destruct (over_loop Z.add 0 ltac:(intros; lia) ltac:(intros; lia)
              ltac:(intros; lia) field reading Hz Hs key rows ∅ groups Hl)
    as (xs' & Hxs' & Hov).
  rewrite Hxs in Hxs'. apply Some_fmap_inj in Hxs'. subst xs'.
  unfold group_ints. unfold field_total in Hov. rewrite Hov.
  by rewrite map_to_list_empty.
Qed.


(** What a grouping loop that ends has read. *)
Lemma loop_readings (key : Row F → string) (rows : list (Row F)) m groups :
  for_each (λ m row, group_step (key row) row.1 m) rows m = Ok groups →
  ∃ attendances visitors offerings decisions,
    (λ row : Row F, attendance_of row.1) <$> rows = Some <$> attendances
    ∧ (λ row : Row F, visitors_of row.1) <$> rows = Some <$> visitors
    ∧ (λ row : Row F, offering_of row.1) <$> rows = Some <$> offerings
    ∧ (λ row : Row F, decisions_of row.1) <$> rows = Some <$> decisions.
Proof.
  revert m. induction rows as [|row rows IH]; intros m Hl; simpl in Hl.
  - by exists [], [], [], [].
  - ok_step Hl m1 Es.
    unfold group_step in Es. ok_step Es g Eg. clear Es.
    destruct (add_record_inv _ _ _ Eg) as (a & v & o & d & Ha & Hv & Ho & Hd & _).
    destruct (IH _ Hl) as (as' & vs & os & ds & Has & Hvs & Hos & Hds).
    exists (a :: as'), (v :: vs), (o :: os), (d :: ds).
    rewrite !fmap_cons. by rewrite Ha, Hv, Ho, Hd, Has, Hvs, Hos, Hds.
Qed.

Lemma services_loop (key : Row F → string) (rows : list (Row F)) groups :
  for_each (λ m row, group_step (key row) row.1 m) rows ∅ = Ok groups →
  group_ints Stats.services (map_to_list groups) = Z.of_nat (length rows).
Proof.
  intros Hl.
  rewrite (group_ints_loop Stats.services (λ _, Some 1) key rows groups
             ((λ _, 1) <$> rows)); try done.
  - clear Hl.
    assert (∀ k, foldl Z.add k ((λ _ : Row F, 1) <$> rows)
                 = k + Z.of_nat (length rows)) as Hk.
    { induction rows as [|row rows IH]; intros k; simpl; [lia|].
      rewrite IH. lia. }
    rewrite Hk. lia.
  - intros r g g' Hg.
    destruct (add_record_inv r g g' Hg) as (a & v & o & d & _ & _ & _ & _ & ->).
    by exists 1.
  - by rewrite <- list_fmap_compose.
Qed.

End AggregationFacts.

Section OverviewFacts.
Context {F : Type} `{Amount F}.

(** The flat totals of a result are the left sums of the four readings of
    the selected records, and its zone groups come out of the zone loop. *)
Lemma overview_of_inv period start_date end_date (records : list (Row F)) o :
  overview_of period start_date end_date records = Ok o →
  ∃ attendances visitors offerings decisions,
    (λ row : Row F, attendance_of row.1) <$> records = Some <$> attendances
    ∧ (λ row : Row F, visitors_of row.1) <$> records = Some <$> visitors
    ∧ (λ row : Row F, offering_of row.1) <$> records = Some <$> offerings
    ∧ (λ row : Row F, decisions_of row.1) <$> records = Some <$> decisions
    ∧ Overview.total_attendance o = foldl Z.add 0 attendances
    ∧ Overview.total_visitors o = foldl Z.add 0 visitors
    ∧ (ExactAmount F → Overview.total_offering o = foldl aadd azero offerings)
    ∧ Overview.total_decisions o = foldl Z.add 0 decisions
    ∧ for_each zone_step records ∅ = Ok (Overview.zone_stats o)
    ∧ Overview.total_records o = Z.of_nat (length records).
Proof.
  unfold overview_of. intros Ho.
  ok_step Ho ta Eta. ok_step Ho tv Etv. ok_step Ho to Eto. ok_step Ho td Etd.
  ok_step Ho zs Ezs. ok_step Ho ls Els. injection Ho as <-. simpl.
  destruct (loop_readings (λ row, Leader.zone row.2) records ∅ zs Ezs)
    as (as' & vs & os & ds & Has & Hvs & Hos & Hds).
  exists as', vs, os, ds.
  destruct (sum_ints_inv _ _ Eta) as (as2 & Has2 & ->).
  destruct (sum_ints_inv _ _ Etv) as (vs2 & Hvs2 & ->).
  destruct (sum_amounts_inv _ _ Eto) as (os2 & Hos2 & ->).
  destruct (sum_ints_inv _ _ Etd) as (ds2 & Hds2 & ->).
  rewrite Has in Has2. apply Some_fmap_inj in Has2 as <-.
  rewrite Hvs in Hvs2. apply Some_fmap_inj in Hvs2 as <-.
  repeat split; try done.
  - intros Hex.
    apply (cell_readings aadd azero aadd_assoc aadd_comm aadd_zero_l
             offering_of ServiceRecord.cell_offering records); try done.
  - apply (cell_readings Z.add 0 ltac:(intros; lia) ltac:(intros; lia)
             ltac:(intros; lia) decisions_of ServiceRecord.cell_decisions
             records); try done.
Qed.

(** The handler answers whenever the four readings of every selected
    record are there. *)
Lemma for_each_groups_total (key : Row F → string) (rows : list (Row F)) m :
  Forall (λ row : Row F,
            is_Some (attendance_of row.1) ∧ is_Some (visitors_of row.1)
            ∧ is_Some (offering_of row.1) ∧ is_Some (decisions_of row.1)) rows →
  is_ok (for_each (λ m row, group_step (key row) row.1 m) rows m) = true.
Proof.
  intros Hall. revert m.
  induction Hall as [|row rows (Ha & Hv & Ho & Hd) _ IH]; intros m; simpl; [done|].
  assert (∃ m1, group_step (key row) row.1 m = Ok m1) as [m1 Hm1].
  { unfold group_step.
    pose proof (add_record_total row.1 (default no_stats (m !! key row))
                  Ha Hv Ho Hd) as Hok.
    destruct (add_record row.1 (default no_stats (m !! key row))); [|done].
    by eexists. }
  rewrite Hm1. simpl. apply IH.
Qed.

Lemma sum_loop_is_ok {M} (op : M → M → M) (xs : list (option M)) a :
  Forall is_Some xs →
  is_ok (for_each (λ acc x, v ← need TypeError x; Ok (op acc v)) xs a) = true.
Proof.
  intros Hall. revert a.
  induction Hall as [|x xs [v ->] _ IH]; intros a; simpl; [done|apply IH].
Qed.

Lemma leader_loop_total (rows : list (Row F)) m :
  Forall (λ row : Row F,
            is_Some (attendance_of row.1) ∧ is_Some (visitors_of row.1)
            ∧ is_Some (offering_of row.1) ∧ is_Some (decisions_of row.1)) rows →
  is_ok (for_each leader_step rows m) = true.
Proof.
  intros Hall. revert m.
  induction Hall as [|row rows (Ha & Hv & Ho & Hd) _ IH]; intros m; simpl; [done|].
  assert (∃ m1, leader_step m row = Ok m1) as [m1 Hm1].
  { unfold leader_step.
    set (g := default _ (m !! Leader.name row.2)).
    pose proof (add_record_total row.1 (LeaderStats.stats g) Ha Hv Ho Hd) as Hok.
    destruct (add_record row.1 (LeaderStats.stats g)); [|done].
    by eexists. }
  rewrite Hm1. simpl. apply IH.
Qed.

(** The overview answers for every selection in which the readings it adds
    are there (no NULL in the columns of the record's type). *)
Lemma overview_of_total period start_date end_date (records : list (Row F)) :
  Forall (λ row : Row F,
            is_Some (attendance_of row.1) ∧ is_Some (visitors_of row.1)
            ∧ is_Some (offering_of row.1) ∧ is_Some (decisions_of row.1)) records →
  is_ok (overview_of period start_date end_date records) = true.
Proof.
  intros Hall. unfold overview_of.
  assert (is_ok (sum_ints ((λ row : Row F, attendance_of row.1) <$> records)) = true)
    as Hta.
  { apply sum_loop_is_ok, Forall_fmap. eapply Forall_impl; [exact Hall|].
    by intros row (Ha & _). }
  assert (is_ok (sum_ints ((λ row : Row F, visitors_of row.1) <$> records)) = true)
    as Htv.
  { apply sum_loop_is_ok, Forall_fmap. eapply Forall_impl; [exact Hall|].
    by intros row (_ & Hv & _). }
  assert (Forall (λ row : Row F,
                    is_Some (ServiceRecord.cell_offering row.1)
                    ∧ is_Some (ServiceRecord.cell_decisions row.1))
            (List.filter (λ row : Row F, is_cell row.1) records)) as Hcells.
  { apply List.Forall_forall. intros row Hin.
    apply List.filter_In in Hin as [Hin Hc].
    rewrite List.Forall_forall in Hall.
    destruct (Hall row Hin) as (_ & _ & Ho & Hd).
    unfold offering_of, decisions_of in Ho, Hd. by rewrite Hc in Ho, Hd. }
  assert (is_ok (sum_amounts
                   ((λ row : Row F, ServiceRecord.cell_offering row.1)
                      <$> List.filter (λ row : Row F, is_cell row.1) records))
          = true) as Hto.
  { apply sum_loop_is_ok, Forall_fmap. eapply Forall_impl; [exact Hcells|].
    by intros row (Ho & _). }
  assert (is_ok (sum_ints
                   ((λ row : Row F, ServiceRecord.cell_decisions row.1)
                      <$> List.filter (λ row : Row F, is_cell row.1) records))
          = true) as Htd.
  { apply sum_loop_is_ok, Forall_fmap. eapply Forall_impl; [exact Hcells|].
    by intros row (_ & Hd). }
  pose proof (for_each_groups_total (λ row, Leader.zone row.2) records ∅ Hall)
    as Hzs.
  pose proof (leader_loop_total records ∅ Hall) as Hls.
  destruct (sum_ints _) as [ta|]; [|done]. cbn [mbind res_bind].
  destruct (sum_ints _) as [tv|]; [|done]. cbn [mbind res_bind].
  destruct (sum_amounts _) as [to|]; [|done]. cbn [mbind res_bind].
  destruct (sum_ints _) as [td|]; [|done]. cbn [mbind res_bind].
  change (for_each zone_step records ∅)
    with (for_each (λ m (row : Row F), group_step (Leader.zone row.2) row.1 m)
            records ∅).
  destruct (for_each _ records ∅) as [zs|]; [|done]. cbn [mbind res_bind].
  by destruct (for_each leader_step records ∅).
Qed.

(** So do the trends. *)
Lemma trends_of_total period (records : list (Row F)) :
  Forall (λ row : Row F,
            is_Some (attendance_of row.1) ∧ is_Some (visitors_of row.1)
            ∧ is_Some (offering_of row.1) ∧ is_Some (decisions_of row.1)) records →
  is_ok (trends_of period records) = true.
Proof.
  intros Hall. unfold trends_of.
  pose proof (for_each_groups_total (λ row, date_key period row.1) records ∅ Hall)
    as Hts.
  change (for_each (trend_step period) records ∅)
    with (for_each (λ m (row : Row F), group_step (date_key period row.1) row.1 m)
            records ∅).
  by destruct (for_each _ records ∅).
Qed.

End OverviewFacts.

(** ** The flat totals and the zone groups of an overview *)




(** C10: in every result of the overview, the [services] counters of the
    zone groups add up to [total_records]: each selected record is counted
    once, in the group of its leader's zone. *)
Theorem zone_services_total {F : Type} `{Amount F}
    period start_date end_date (records : list (Row F)) (o : Overview.t F) :
  overview_of period start_date end_date records = Ok o →
  group_ints Stats.services (map_to_list (Overview.zone_stats o))
  = Overview.total_records o.
Proof.
  intros Ho.
  destruct (overview_of_inv _ _ _ _ _ Ho)
    as (as' & vs & os & ds & _ & _ & _ & _ & _ & _ & _ & _ & Hz & ->).
  by apply (services_loop (λ row, Leader.zone row.2) records).
Qed.

Lemma zone_services_total_witness :
  ∃ o, analytics_overview rounding_store a_monday None None None = Ok o
       ∧ Overview.total_records o = 3
       ∧ group_ints Stats.services (map_to_list (Overview.zone_stats o))
         = Overview.total_records o.
Proof.
  eexists. split; [vm_compute; reflexivity|]. split; [reflexivity|].
  match goal with
  | |- _ = Overview.total_records ?o =>
      apply (zone_services_total (F:=float) "week"
               (period_start "week" a_monday) a_monday
               (select rounding_store (period_start "week" a_monday) a_monday "" "")
               o)
  end.
  vm_compute. reflexivity.
Defined.

(** Each record goes to the group of its leader's zone and to no other: a
    turn of the zone loop changes that one group. *)
Lemma zone_step_one_group {F : Type} `{Amount F}
    (zone_stats zone_stats' : gmap string (Stats.t F)) (row : Row F) zone :
  zone_step zone_stats row = Ok zone_stats' →
  zone ≠ Leader.zone row.2 →
  zone_stats' !! zone = zone_stats !! zone.
Proof.
  unfold zone_step, group_step. intros Hs Hne.
  ok_step Hs g Eg. injection Hs as <-.
  by rewrite lookup_insert_ne.
Qed.

(** ** Trends and overview over the same selection *)

Lemma group_ints_perm {F : Type} (field : Stats.t F → Z)
    (l1 l2 : list (string * Stats.t F)) :
  l1 ≡ₚ l2 → group_ints field l1 = group_ints field l2.
Proof.
  intros Hp. unfold group_ints.
  apply foldl_op_perm; [intros; lia|intros; lia|].
  by apply fmap_Permutation.
Qed.





(** ** The readings of a Sunday service *)

Lemma sunday_is_sunday {F : Type} (record : ServiceRecord.t F) :
  ServiceRecord.service_type record = "sunday" →
  is_sunday record = true ∧ is_cell record = false.
Proof. unfold is_sunday, is_cell. intros ->. by split. Qed.

(** C2: for every record whose [service_type] is "sunday", whatever its
    [cell_offering] and [cell_decisions] hold, the offering and the decisions
    are 0 everywhere they are projected: the reading the grouping loops of
    the overview and of the trends add and the recent submissions list, the
    flat totals of the overview (the record is not among those summed), and
    the row of the CSV export. *)
Theorem sunday_offering_and_decisions_zero {F : Type} `{Amount F}
    (record : ServiceRecord.t F) (leader : Leader.t) :
  ServiceRecord.service_type record = "sunday" →
  offering_of record = Some azero ∧ decisions_of record = Some 0
  ∧ (∀ g g', add_record record g = Ok g' →
       Stats.offering g' = aadd (Stats.offering g) azero
       ∧ Stats.decisions g' = Stats.decisions g + 0)
  ∧ (∀ records : list (Row F),
       List.filter (λ row : Row F, is_cell row.1) ((record, leader) :: records)
       = List.filter (λ row : Row F, is_cell row.1) records)
  ∧ (∀ period start_date end_date o,
       overview_of period start_date end_date [(record, leader)] = Ok o →
       Overview.total_offering o = azero ∧ Overview.total_decisions o = 0)
  ∧ (∀ entry, submission_of (record, leader) = Ok entry →
       Submission.offering entry = Some azero
       ∧ Submission.decisions entry = Some 0)
  ∧ (∀ cells, csv_row (record, leader) = Ok cells →
       cells !! 7%nat = Some (CInt 0) ∧ cells !! 8%nat = Some (CInt 0)).
Proof.
  intros Hty. destruct (sunday_is_sunday record Hty) as [Hs Hc].
  assert (offering_of record = Some azero) as Ho
    by (unfold offering_of; by rewrite Hc).
  assert (decisions_of record = Some 0) as Hd
    by (unfold decisions_of; by rewrite Hc).
  repeat split; try done.
  - destruct (add_record_inv _ _ _ H0) as (a & v & o & d & _ & _ & Ho' & _ & ->).
    simpl. congruence.
  - destruct (add_record_inv _ _ _ H0) as (a & v & o & d & _ & _ & _ & Hd' & ->).
    simpl. congruence.
  - intros records. simpl. by rewrite Hc.
  - unfold overview_of in H0. simpl in H0. rewrite Hc in H0. simpl in H0.
    ok_step H0 ta Eta. ok_step H0 tv Etv. ok_step H0 zs Ezs. ok_step H0 ls Els.
    by injection H0 as <-.
  - unfold overview_of in H0. simpl in H0. rewrite Hc in H0. simpl in H0.
    ok_step H0 ta Eta. ok_step H0 tv Etv. ok_step H0 zs Ezs. ok_step H0 ls Els.
    by injection H0 as <-.
  - unfold submission_of in H0. ok_step H0 t Et. injection H0 as <-. by simpl.
  - unfold submission_of in H0. ok_step H0 t Et. injection H0 as <-. by simpl.
  - unfold csv_row in H0. simpl in H0. rewrite Hs in H0.
    ok_step H0 t Et. by injection H0 as <-.
  - unfold csv_row in H0. simpl in H0. rewrite Hs in H0.
    ok_step H0 t Et. by injection H0 as <-.
Qed.

Lemma sunday_offering_and_decisions_zero_witness :
  ServiceRecord.service_type odd_sunday = "sunday"
  ∧ ServiceRecord.cell_offering odd_sunday = Some 999.5%float
  ∧ ServiceRecord.cell_decisions odd_sunday = Some 7
  ∧ offering_of odd_sunday = Some 0%float
  ∧ decisions_of odd_sunday = Some 0.
Proof.
  split; [reflexivity|]. split; [reflexivity|]. split; [reflexivity|].
  destruct (sunday_offering_and_decisions_zero odd_sunday leader_one eq_refl)
    as (Ho & Hd & _).
  split; [exact Ho|exact Hd].
Defined.

(** ** Periods, ranges and bucket keys *)

Lemma digits_length w n : length (digits w n) = w.
Proof.
  revert n. induction w as [|w IH]; intros n; simpl; [done|].
  rewrite length_app, IH. simpl. lia.
Qed.

Lemma string_of_list_length cs : String.length (string_of_list_ascii cs) = length cs.
Proof. induction cs as [|c cs IH]; simpl; [done|by rewrite IH]. Qed.

(** A daily key has the ten characters of YYYY-MM-DD, a monthly key the
    seven of YYYY-MM. *)
Lemma strftime_Ymd_length d : String.length (strftime_Ymd d) = 10%nat.
Proof.
  unfold strftime_Ymd, date_isoformat, date_chars.
  rewrite string_of_list_length. cbn [length].
  rewrite !length_app. cbn [length]. rewrite !length_app. cbn [length].
  by rewrite !digits_length.
Qed.

Lemma strftime_Ym_length d : String.length (strftime_Ym d) = 7%nat.
Proof.
  unfold strftime_Ym. rewrite string_of_list_length.
  rewrite !length_app. cbn [length]. by rewrite !digits_length.
Qed.

Lemma eqb_other (a b : string) : a ≠ b → String.eqb a b = false.
Proof. intros Hne. by apply String.eqb_neq. Qed.

(** The bucket key is monthly for the token "year" and daily for every
    other token, recognized or not. *)
Lemma date_key_by_token {F : Type} (period : string) (record : ServiceRecord.t F) :
  date_key period record
  = if bool_decide (period = "year")
    then strftime_Ym (ServiceRecord.service_date record)
    else strftime_Ymd (ServiceRecord.service_date record).
Proof.
  unfold date_key. case_bool_decide as Hp.
  - by rewrite Hp.
  - by rewrite eqb_other.
Qed.


(** C5, on the code: for an unrecognized token the trends take the range of
    the year (365 days, and the format recorded for it is the monthly one)
    but key their buckets by day.  With the token "quarter" the meetings of
    4 and 5 January and the service of 7 January fall in three daily
    buckets, not in the one bucket "2024-01". *)
Theorem unrecognized_token_buckets_by_day :
  period_start "quarter" a_monday = date_sub_days a_monday 365
  ∧ group_format "quarter" = "%Y-%m"
  ∧ (∀ record : ServiceRecord.t float,
       date_key "quarter" record = strftime_Ymd (ServiceRecord.service_date record))
  ∧ analytics_trends sample_store a_monday (Some "quarter") None
    = Ok [("2024-01-04", Stats.mk 40 6 152.5%float 4 2);
          ("2024-01-05", Stats.mk 20 3 1%float 2 1);
          ("2024-01-07", Stats.mk 50 5 0%float 0 1)]
  ∧ analytics_trends sample_store a_monday (Some "year") None
    = Ok [("2024-01", Stats.mk 110 14 153.5%float 6 4)].
Proof.
  split; [reflexivity|]. split; [reflexivity|]. split; [reflexivity|].
  split; vm_compute; reflexivity.
Qed.


(** ** The CSV export *)

Section CsvFacts.
Context {F : Type} `{Amount F}.

Lemma csv_row_line (row : Row F) line : csv_row row = Ok line → line_of row line.
Proof.
  unfold csv_row, line_of. intros Hr.
  destruct (is_sunday row.1) eqn:Hs; simpl in Hr.
  - ok_step Hr t Et. injection Hr as <-. apply need_ok in Et.
    exists t, (CInt 0), (CInt 0). split; [done|].
    assert (is_cell row.1 = false) as Hc.
    { unfold is_sunday in Hs. apply String.eqb_eq in Hs.
      unfold is_cell. by rewrite Hs. }
    unfold attendance_of, visitors_of, effective_offering_cell,
      effective_decisions_cell. rewrite Hs, Hc.
    repeat split; try done. by intros ->.
  - ok_step Hr t Et. injection Hr as <-. apply need_ok in Et.
    exists t, (amount_cell (ServiceRecord.cell_offering row.1)),
      (int_cell (ServiceRecord.cell_decisions row.1)).
    split; [done|].
    unfold attendance_of, visitors_of, effective_offering_cell,
      effective_decisions_cell. rewrite Hs.
    repeat split; try done.
    + simpl in H0. by rewrite H0.
    + simpl in H0. by rewrite H0.
    + by intros ->.
Qed.

Lemma collect_Forall2 {A B} (f : A → res B) (P : A → B → Prop) xs ys :
  (∀ x y, f x = Ok y → P x y) → collect f xs = Ok ys → Forall2 P xs ys.
Proof.
  intros Hf. revert ys. induction xs as [|x xs IH]; intros ys Hc; simpl in Hc.
  - injection Hc as <-. constructor.
  - ok_step Hc y Ey. ok_step Hc ys' Eys. injection Hc as <-.
    constructor; [by apply Hf|by apply IH].
Qed.

Lemma collect_total {A B} (f : A → res B) xs :
  Forall (λ x, is_ok (f x) = true) xs → is_ok (collect f xs) = true.
Proof.
  induction 1 as [|x xs Hx _ IH]; simpl; [done|].
  destruct (f x); [|done]. simpl. by destruct (collect f xs).
Qed.

(** The export answers when every selected record has its
    [submitted_at]. *)
Lemma csv_of_total (records : list (Row F)) :
  Forall (λ row : Row F, is_Some (ServiceRecord.submitted_at row.1)) records →
  is_ok (csv_of records) = true.
Proof.
  intros Hall. unfold csv_of.
  assert (is_ok (collect csv_row records) = true) as Hok.
  { apply collect_total. eapply Forall_impl; [exact Hall|].
    intros row [t Ht]. unfold csv_row. rewrite Ht.
    by destruct (is_sunday row.1). }
  by destruct (collect csv_row records).
Qed.

End CsvFacts.

(** C8, as the code has it: for every record selection, the first row of the
    export is the header ID, Leader Name, Zone, Service Type, Service Date,
    Attendance, Visitors, Offering (ZAR), Decisions, Notes, Submitted At; it
    is followed by one row per selected record, in order, with the effective
    attendance and visitors, with the effective offering and decisions when
    the record is a Sunday service or a cell meeting, and with the empty
    string for absent notes. *)
Theorem csv_header_and_rows {F : Type} `{Amount F}
    (records : list (Row F)) (rows : list (list (cell F))) :
  csv_of records = Ok rows →
  ∃ body,
    rows = csv_header :: body
    ∧ csv_header (F:=F)
      = [CText "ID"; CText "Leader Name"; CText "Zone"; CText "Service Type";
         CText "Service Date"; CText "Attendance"; CText "Visitors";
         CText "Offering (ZAR)"; CText "Decisions"; CText "Notes";
         CText "Submitted At"]
    ∧ Forall2 line_of records body.
Proof.
  unfold csv_of. intros Hc. ok_step Hc body Eb. injection Hc as <-.
  exists body. split; [done|]. split; [done|].
  eapply collect_Forall2; [|exact Eb]. apply csv_row_line.
Qed.

Lemma csv_header_and_rows_witness :
  ∃ rows,
    export_csv sample_store None None (Some "Chestnut") = Ok rows
    ∧ length rows = 3%nat
    ∧ ∃ body, rows = csv_header :: body
              ∧ Forall2 line_of
                  (export_selection sample_store None None "Chestnut") body.
Proof.
  eexists. split; [vm_compute; reflexivity|]. split; [reflexivity|].
  match goal with
  | |- ∃ body, ?rows = _ ∧ _ =>
      destruct (csv_header_and_rows (F:=float)
                  (export_selection sample_store None None "Chestnut") rows)
        as (body & Hrows & _ & Hlines)
  end.
  - vm_compute. reflexivity.
  - exists body. split; [exact Hrows|exact Hlines].
Defined.

(** C8, as stated, fails: the eighth column of the header is named
    "Offering (ZAR)", not "Offering". *)
Lemma csv_header_is_not_spec_header :
  ∃ rows,
    export_csv sample_store None None None = Ok rows
    ∧ rows !! 0%nat = Some csv_header
    ∧ rows !! 0%nat ≠ Some spec_header
    ∧ csv_header (F:=float) !! 7%nat = Some (CText "Offering (ZAR)")
    ∧ spec_header (F:=float) !! 7%nat = Some (CText "Offering").
Proof.
  eexists. split; [vm_compute; reflexivity|].
  split; [reflexivity|]. split; [|split; reflexivity].
  intros Heq. apply (f_equal (λ o, o ≫= (.!! 7%nat))) in Heq.
  vm_compute in Heq. discriminate Heq.
Qed.

(** ** Restore: what is refused, and what a refusal leaves *)

Section RestoreFacts.
Context {F : Type} `{Amount F}.

Lemma collect_raise {A B} (f : A → res B) xs x :
  x ∈ xs → is_ok (f x) = false → is_ok (collect f xs) = false.
Proof.
  intros Hin Hx. induction Hin as [x xs|x y xs _ IH]; simpl.
  - by destruct (f x).
  - destruct (f y); [|done]. simpl.
    destruct (collect f xs); [discriminate (IH Hx)|done].
Qed.

Lemma restore_leader_lacks now entry :
  lacks_field leader_required entry → is_ok (restore_leader now entry) = false.
Proof.
  intros (fields & key & -> & Hkey & Hnone).
  unfold leader_required in Hkey. unfold restore_leader.
  cbn [item get mbind res_bind need].
  destruct (fields !! "name") as [name|] eqn:Hname; [|done].
  destruct (fields !! "zone") as [zone|] eqn:Hzone; [|done].
  destruct (fields !! "id") as [id|] eqn:Hid; [|done].
  key_cases Hkey.
Qed.

Lemma restore_record_lacks now entry :
  lacks_field record_required entry → is_ok (restore_record now entry) = false.
Proof.
  intros (fields & key & -> & Hkey & Hnone).
  unfold record_required in Hkey. unfold restore_record.
  cbn [item get mbind res_bind need].
  destruct (fields !! "leader_id") as [leader_id|] eqn:Hleader; [|done].
  destruct (fields !! "service_type") as [service_type|] eqn:Htype; [|done].
  destruct (fields !! "service_date") as [service_date|] eqn:Hdate; [|done].
  destruct (fields !! "id") as [id|] eqn:Hid.
  - key_cases Hkey.
  - cbn [need mbind res_bind]. by destruct (date_of service_date).
Qed.

Lemma restore_transaction_lacks now (file : Upload F) doc :
  content file = Some doc → entry_lacks_field doc →
  is_ok (restore_transaction now file) = false.
Proof.
  intros Hdoc (top & -> & Hentry). unfold restore_transaction. rewrite Hdoc.
  cbn [need get mbind res_bind].
  destruct Hentry as [(entries & entry & Hl & Hin & Hlacks)
                     |(entries & entry & Hr & Hin & Hlacks)].
  - rewrite Hl. cbn [default from_option id iterate mbind res_bind].
    pose proof (collect_raise (restore_leader now) entries entry Hin
                  (restore_leader_lacks now entry Hlacks)) as Hc.
    by destruct (collect (restore_leader now) entries).
  - destruct (iterate (default (JArr []) (top !! "leaders"))) as [ls|]; [|done].
    cbn [mbind res_bind].
    destruct (collect (restore_leader now) ls) as [new_leaders|]; [|done].
    cbn [mbind res_bind]. rewrite Hr. cbn [default from_option id iterate mbind res_bind].
    pose proof (collect_raise (restore_record now) entries entry Hin
                  (restore_record_lacks now entry Hlacks)) as Hc.
    by destruct (collect (restore_record now) entries).
Qed.

Lemma endswith_nonempty (s suffix : string) :
  endswith s suffix = true → suffix ≠ "" → truthy s = true.
Proof.
  intros He Hne. destruct s; [|done].
  simpl in He. destruct suffix; [done|discriminate].
Qed.

(** All or nothing: an answer that is not a success leaves the store as it
    was. *)
Lemma restore_data_rollback (s s' : Store F) now file r :
  restore_data s now file = (r, s') → success r = false → s' = s.
Proof.
  unfold restore_data. intros Hr Hf.
  destruct file as [file|]; [|by injection Hr as <- <-].
  destruct (String.eqb (filename file) ""); [by injection Hr as <- <-|].
  destruct (truthy (filename file) && endswith (filename file) ".json");
    [|by injection Hr as <- <-].
  destruct (restore_transaction now file).
  - injection Hr as <- <-. discriminate Hf.
  - by injection Hr as <- <-.
Qed.

End RestoreFacts.

(** C6: [restore_data] answers with a failure when the name of the upload
    does not end in ".json", when its body is not valid JSON, or when an
    entry of its document lacks a required field; in each of these cases the
    leaders and the service records in the store are those from before. *)
Theorem restore_refusal_keeps_store {F : Type} `{Amount F}
    (s : Store F) (now : DateTime.t) (file : Upload F) :
  unacceptable file →
  ∃ r, restore_data s now (Some file) = (r, s) ∧ success r = false.
Proof.
  intros Hbad. unfold restore_data.
  destruct (String.eqb (filename file) "") eqn:Hempty; [by eexists|].
  destruct (truthy (filename file) && endswith (filename file) ".json") eqn:Hjson;
    [|by eexists].
  apply andb_prop in Hjson as [_ Hjson].
  assert (is_ok (restore_transaction now file) = false) as Hfail.
  { destruct Hbad as [Hext|[Hbody|(doc & Hdoc & Hlacks)]].
    - congruence.
    - unfold restore_transaction. by rewrite Hbody.
    - by eapply restore_transaction_lacks. }
  destruct (restore_transaction now file); [done|by eexists].
Qed.

Lemma restore_refusal_keeps_store_witness :
  unacceptable zoneless_upload
  ∧ restore_data sample_store stamp_b (Some zoneless_upload)
    = (RestoreFailed (KeyError "zone"), sample_store)
  ∧ ∃ r, restore_data sample_store stamp_b (Some zoneless_upload) = (r, sample_store)
         ∧ success r = false.
Proof.
  assert (unacceptable zoneless_upload) as Hbad.
  { right. right. eexists. split; [reflexivity|].
    eexists. split; [reflexivity|]. left.
    eexists _, (JObj (list_to_map [("id", JInt 2); ("name", JStr "Leader 2")])).
    split; [vm_compute; reflexivity|].
    split; [apply list_elem_of_further, list_elem_of_here|].
    eexists _, "zone". split; [reflexivity|].
    split; [unfold leader_required; set_solver|vm_compute; reflexivity]. }
  split; [exact Hbad|]. split; [vm_compute; reflexivity|].
  exact (restore_refusal_keeps_store sample_store stamp_b zoneless_upload Hbad).
Defined.

(** ** Submission: what is refused, and what is stored *)

Section SubmitFacts.
Context {F : Type} `{Amount F}.

Lemma next_id_above (ids : list Z) x : x ∈ ids → x < next_id ids.
Proof.
  unfold next_id. induction 1 as [x ids|x y ids _ IH]; simpl; lia.
Qed.

Lemma next_id_fresh (ids : list Z) : next_id ids ∉ ids.
Proof. intros Hin. apply next_id_above in Hin. lia. Qed.

Lemma commit_ok (s : Store F) : keys_distinct s → commit s = Ok s.
Proof.
  intros [Hl Hr]. unfold commit.
  by rewrite !bool_decide_eq_true_2.
Qed.

Lemma commit_inv (s s' : Store F) : commit s = Ok s' → s' = s ∧ keys_distinct s.
Proof.
  unfold commit. intros Hc.
  destruct (bool_decide (NoDup (Leader.id <$> leaders s))) eqn:Hl; [|done].
  destruct (bool_decide (NoDup (ServiceRecord.id <$> service_records s))) eqn:Hr;
    [|done].
  injection Hc as <-. split; [done|].
  split; by eapply bool_decide_eq_true_1.
Qed.

Lemma is_ok_Ok {A} (m : res A) : is_ok m = true → ∃ a, m = Ok a.
Proof. destruct m; [by eexists|done]. Qed.





End SubmitFacts.




(** ** Backup and restore: the round trip *)















Section RoundTrip.
Context {F : Type} `{Amount F}.












End RoundTrip.




(** * Further properties of the handlers *)

(** ** Lists *)

Lemma elem_of_List_filter {A} (p : A → bool) (l : list A) x :
  x ∈ List.filter p l ↔ x ∈ l ∧ p x = true.
Proof. rewrite !list_elem_of_In. apply filter_In. Qed.

(** ** File names and initials *)

Lemma list_ascii_app (a b : string) :
  list_ascii_of_string (a +:+ b)
  = (list_ascii_of_string a ++ list_ascii_of_string b)%list.
Proof. induction a as [|c a IH]; simpl; [done|]. by rewrite IH. Qed.


Lemma after_last_dot_none (cs : list ascii) :
  dot ∉ cs → after_last_dot cs = None.
Proof.
  induction cs as [|c cs IH]; [done|]. intros Hn. simpl.
  rewrite IH by (intros ?; apply Hn; by right).
  rewrite bool_decide_eq_false_2; [done|]. intros ->. apply Hn. left.
Qed.

Lemma after_last_dot_app (stem ext : list ascii) :
  dot ∉ ext → after_last_dot (stem ++ dot :: ext) = Some ext.
Proof.
  intros Hn. induction stem as [|c stem IH]; simpl.
  - rewrite after_last_dot_none by done. by rewrite ?bool_decide_eq_true_2.
  - by rewrite IH.
Qed.


Lemma allowed_file_app (stem ext : string) :
  dot ∉ list_ascii_of_string ext →
  allowed_file (stem +:+ "." +:+ ext)
  = bool_decide (lower_text ext ∈ ALLOWED_EXTENSIONS).
Proof.
  intros Hn. unfold allowed_file. rewrite !list_ascii_app.
  change (list_ascii_of_string ".") with [dot]. simpl app.
  rewrite after_last_dot_app by done.
  by rewrite string_of_list_ascii_of_string.
Qed.

(** X1.  Whether a file name is accepted depends on what follows its last
    dot only, whatever the case of its letters and whatever comes before; a
    name without a dot is refused. *)
Theorem allowed_file_last_extension (stem ext : string) :
  dot ∉ list_ascii_of_string ext →
  allowed_file (stem +:+ "." +:+ ext)
  = bool_decide (lower_text ext ∈ ALLOWED_EXTENSIONS)
  ∧ allowed_file ext = false.
Proof.
  intros Hn. split; [by apply allowed_file_app|].
  unfold allowed_file. by rewrite after_last_dot_none.
Qed.

Lemma allowed_file_last_extension_witness :
  allowed_file "upload.php.PNG" = true ∧ allowed_file "PNG" = false.
Proof.
  destruct (allowed_file_last_extension "upload.php" "PNG") as [E1 E2].
  - by apply (bool_decide_unpack _).
  - split; [|done]. change ("upload.php" +:+ "." +:+ "PNG") with "upload.php.PNG" in E1.
    by rewrite E1.
Defined.




Lemma upper_cases (c : ascii) :
  upper (upper c) = upper c ∧ (is_space c = false → is_space (upper c) = false).
Proof. by destruct c as [[] [] [] [] [] [] [] []]. Qed.

Lemma split_words_words (word cs : list ascii) :
  Forall (λ c, is_space c = false) word →
  Forall (λ w, w ≠ [] ∧ Forall (λ c, is_space c = false) w) (split_words word cs).
Proof.
  revert word. induction cs as [|c cs IH]; intros word Hw; simpl.
  - destruct word; [constructor|]. constructor; [done|constructor].
  - destruct (is_space c) eqn:Ec.
    + destruct word; [by apply IH|]. constructor; [done|by apply IH].
    + apply IH, Forall_app. split; [done|]. constructor; [done|constructor].
Qed.

Lemma split_words_nil (word cs : list ascii) :
  split_words word cs = [] ↔ word = [] ∧ Forall (λ c, is_space c = true) cs.
Proof.
  revert word. induction cs as [|c cs IH]; intros word; simpl.
  - destruct word; split; try done.
    + by intros [? _].
  - rewrite Forall_cons. destruct (is_space c) eqn:Ec.
    + destruct word; [|split; [done|by intros [? _]]].
      rewrite IH. split; [by intros [_ ?]|by intros [_ [_ ?]]].
    + rewrite IH. split.
      * intros [E _]. by apply app_eq_nil in E as [_ ?].
      * by intros [_ [? _]].
Qed.

(** X3.  The initials of a leader with an ASCII name are at most two
    characters, none of them white space or a small letter, and there are
    none exactly when the name holds nothing but white space. *)
Theorem initials_of_a_name (leader : Leader.t) :
  (String.length (get_initials leader) ≤ 2)%nat
  ∧ Forall (λ c, is_space c = false ∧ upper c = c)
      (list_ascii_of_string (get_initials leader))
  ∧ (get_initials leader = ""
     ↔ Forall (λ c, is_space c = true)
         (list_ascii_of_string (Leader.name leader))).
Proof.
  unfold get_initials.
  pose proof (split_words_words [] (list_ascii_of_string (Leader.name leader))
                (Forall_nil_2 _)) as Hw.
  pose proof (split_words_nil [] (list_ascii_of_string (Leader.name leader)))
    as Hn.
  destruct (split_words [] (list_ascii_of_string (Leader.name leader)))
    as [|w1 [|w2 ws]].
  - split; [simpl; lia|]. split; [constructor|]. split; [intros _|done].
    by apply Hn.
  - apply Forall_cons in Hw as [[Hne Hs] _]. destruct w1 as [|c w1]; [done|].
    apply Forall_cons in Hs as [Hc _]. destruct (upper_cases c) as [Hu Hsp].
    split; [simpl; lia|]. split; [by repeat constructor; auto|].
    split; [done|]. intros Hall. by pose proof (proj2 Hn (conj eq_refl Hall)).
  - apply Forall_cons in Hw as [[Hne1 Hs1] Hw].
    apply Forall_cons in Hw as [[Hne2 Hs2] _].
    destruct w1 as [|c1 w1]; [done|]. destruct w2 as [|c2 w2]; [done|].
    apply Forall_cons in Hs1 as [Hc1 _]. apply Forall_cons in Hs2 as [Hc2 _].
    destruct (upper_cases c1) as [Hu1 Hsp1], (upper_cases c2) as [Hu2 Hsp2].
    split; [simpl; lia|]. split; [by repeat constructor; auto|].
    split; [done|]. intros Hall. by pose proof (proj2 Hn (conj eq_refl Hall)).
Qed.

(** ** Searching leaders *)



Lemma like_percent_cons (pat : list ascii) c text :
  like ("%"%char :: pat) (c :: text)
  = like pat (c :: text) || like ("%"%char :: pat) text.
Proof. reflexivity. Qed.

Lemma like_percent_nil (pat : list ascii) :
  like ("%"%char :: pat) [] = like pat [].
Proof. simpl. by rewrite orb_false_r. Qed.

Lemma like_any (text : list ascii) : like ["%"%char] text = true.
Proof.
  induction text as [|c text IH]; [done|].
  by rewrite like_percent_cons, IH, orb_true_r.
Qed.

Lemma like_percent (pat text : list ascii) :
  like ("%"%char :: pat) text = true
  ↔ ∃ before rest, text = (before ++ rest)%list ∧ like pat rest = true.
Proof.
  induction text as [|c text IH].
  - rewrite like_percent_nil. split.
    + intros Hl. by exists [], [].
    + intros (before & rest & E & Hl). symmetry in E.
      by apply app_eq_nil in E as [_ ->].
  - rewrite like_percent_cons, orb_true_iff, IH. split.
    + intros [Hl|(before & rest & -> & Hl)].
      * by exists [], (c :: text).
      * by exists (c :: before), rest.
    + intros (before & rest & E & Hl). destruct before as [|b before].
      * left. simpl in E. by rewrite E.
      * right. injection E as -> ->. by exists before, rest.
Qed.



Lemma lower_text_chars (s : string) :
  list_ascii_of_string (lower_text s) = lower <$> list_ascii_of_string s.
Proof. unfold lower_text. by rewrite list_ascii_of_string_of_list_ascii. Qed.

Lemma truthy_lower_text (q : string) : q ≠ "" → truthy (lower_text q) = true.
Proof. by destruct q. Qed.


Lemma is_active_true_iff (leader : Leader.t) :
  is_active_true leader = true ↔ Leader.is_active leader = Some true.
Proof.
  unfold is_active_true. destruct (Leader.is_active leader) as [[]|]; by split.
Qed.


Lemma like_percents (pat text : list ascii) :
  pat ≠ [] → Forall (λ c, c = "%"%char) pat → like pat text = true.
Proof.
  intros Hne Hp. induction Hp as [|c pat -> Hp IH]; [done|].
  destruct pat as [|c' pat]; [apply like_any|].
  apply like_percent. exists [], text. split; [done|]. by apply IH.
Qed.

(** X5.  The wildcards of the query are not escaped: a query made of percent
    signs lists the first ten active leaders, whatever their names. *)
Theorem search_percent_lists_everyone {F : Type} `{Amount F}
    (s : Store F) (q : string) :
  q ≠ "" → Forall (λ c, c = "%"%char) (list_ascii_of_string q) →
  search_leaders s (Some q)
  = found_of <$> take 10 (List.filter is_active_true (leaders s)).
Proof.
  intros Hne Hq. unfold search_leaders. cbn [default from_option id].
  rewrite truthy_lower_text by done. do 2 f_equal.
  apply List.filter_ext. intros l.
  assert (Hl : ∀ column, ilike_contains column (lower_text q) = true).
  { intros column. unfold ilike_contains. apply like_percents; [done|].
    constructor; [done|]. apply Forall_app. split; [|by repeat constructor].
    rewrite lower_text_chars. apply Forall_fmap.
    eapply Forall_impl; [exact Hq|]. by intros c ->. }
  by rewrite !Hl.
Qed.


Lemma search_percent_lists_everyone_witness :
  Found.name <$> search_leaders sample_store (Some "%%") = ["Leader 1"; "Leader 2"].
Proof.
  rewrite (search_percent_lists_everyone sample_store "%%");
    [by vm_compute|done|by repeat constructor].
Defined.

(** ** The statistics *)

(** *** The order of the keys *)

Lemma string_leb_trans (a b c : string) :
  String.leb a b = true → String.leb b c = true → String.leb a c = true.
Proof.
  unfold String.leb. revert b c.
  induction a as [|x a IH]; intros [|y b] [|z c]; simpl; try done.
  unfold Ascii.compare.
  destruct (N.compare_spec (N_of_ascii x) (N_of_ascii y)) as [E1|L1|G1];
    destruct (N.compare_spec (N_of_ascii y) (N_of_ascii z)) as [E2|L2|G2];
    try done.
  - rewrite E1, E2, N.compare_refl. apply IH.
  - rewrite E1. by rewrite (proj2 (N.compare_lt_iff _ _) L2).
  - rewrite <- E2. by rewrite (proj2 (N.compare_lt_iff _ _) L1).
  - by rewrite (proj2 (N.compare_lt_iff _ _) (N.lt_trans _ _ _ L1 L2)).
Qed.

Lemma key_leb_trans {A} :
  Transitive (λ a b : string * A, Is_true (String.leb a.1 b.1)).
Proof.
  intros a b c Hab Hbc. apply Is_true_true.
  apply Is_true_true in Hab, Hbc. eauto using string_leb_trans.
Qed.

Lemma key_leb_total {A} :
  Total (λ a b : string * A, Is_true (String.leb a.1 b.1)).
Proof.
  intros a b. destruct (String.leb_total a.1 b.1) as [E|E]; rewrite E; auto.
Qed.

Lemma sorted_items_ascending {F : Type} (trends : gmap string (Stats.t F)) :
  StronglySorted (λ a b, String.leb a b = true ∧ a ≠ b) (sorted_items trends).*1
  ∧ sorted_items trends ≡ₚ map_to_list trends.
Proof.
  unfold sorted_items. split; [|apply merge_sort_Permutation].
  set (R := λ a b : string * Stats.t F, Is_true (String.leb a.1 b.1)).
  assert (Hs : StronglySorted R (merge_sort R (map_to_list trends)))
    by (apply StronglySorted_merge_sort;
        [apply key_leb_trans|apply key_leb_total]).
  assert (Hnd : NoDup (merge_sort R (map_to_list trends)).*1).
  { rewrite merge_sort_Permutation. apply NoDup_fst_map_to_list. }
  revert Hs Hnd. generalize (merge_sort R (map_to_list trends)).
  intros l Hs Hnd. induction Hs as [|a l Hs IH Hall]; [constructor|].
  rewrite fmap_cons in Hnd. apply NoDup_cons in Hnd as [Ha Hnd].
  rewrite fmap_cons. constructor; [by apply IH|].
  apply Forall_fmap, Forall_forall. intros b Hb. simpl. split.
  - eapply Forall_forall in Hall; [|done]. by apply Is_true_true.
  - intros E. apply Ha. rewrite E. apply list_elem_of_fmap. by exists b.
Qed.

(** X6.  The buckets of the trends come in strictly ascending order of their
    key, so no key occurs twice, and their service counts add up to the
    number of records the overview of the same request counts. *)
Theorem trends_buckets_ascending {F : Type} `{Amount F}
    (s : Store F) today period_arg zone_arg buckets (o : Overview.t F) :
  analytics_trends s today period_arg zone_arg = Ok buckets →
  analytics_overview s today period_arg zone_arg None = Ok o →
  StronglySorted (λ a b, String.leb a b = true ∧ a ≠ b) buckets.*1
  ∧ group_ints Stats.services buckets = Overview.total_records o.
Proof.
  unfold analytics_trends, analytics_overview, trends_of.
  set (records := select _ _ _ _ _). intros Ht Ho.
  destruct (for_each (trend_step _) records ∅) as [trends|] eqn:E;
    simpl in Ht; [|discriminate Ht].
  injection Ht as <-. destruct (sorted_items_ascending trends) as [Hs Hp].
  split; [done|].
  apply overview_of_inv in Ho as (_ & _ & _ & _ & _ & _ & _ & _ & _ & _ & _ & _ & _ & ->).
  rewrite (group_ints_perm _ _ _ Hp).
  exact (services_loop (λ row : Row F, date_key (default "week" period_arg) row.1)
           records trends E).
Qed.

Lemma trends_buckets_ascending_witness :
  ∃ buckets o,
    analytics_trends exact_store a_monday (Some "month") None = Ok buckets
    ∧ analytics_overview exact_store a_monday (Some "month") None None = Ok o
    ∧ buckets.*1 = ["2024-01-04"; "2024-01-05"; "2024-01-07"]
    ∧ StronglySorted (λ a b, String.leb a b = true ∧ a ≠ b) buckets.*1
    ∧ group_ints Stats.services buckets = Overview.total_records o.
Proof.
  destruct (analytics_trends exact_store a_monday (Some "month") None)
    as [buckets|] eqn:Et; [|by vm_compute in Et].
  destruct (analytics_overview exact_store a_monday (Some "month") None None)
    as [o|] eqn:Eo; [|by vm_compute in Eo].
  exists buckets, o. split; [done|]. split; [done|]. split.
  - vm_compute in Et. by injection Et as <-.
  - exact (trends_buckets_ascending exact_store a_monday (Some "month") None
             buckets o Et Eo).
Defined.

(** *** The groups of the leaders and the counters of the overview *)

Section OverviewParts.
Context {F : Type} `{Amount F}.

Lemma overview_of_parts period start_date end_date (records : list (Row F)) o :
  overview_of period start_date end_date records = Ok o →
  Overview.sunday_services o = count is_sunday records
  ∧ Overview.cell_meetings o = count is_cell records
  ∧ Overview.total_records o = Z.of_nat (length records)
  ∧ for_each leader_step records ∅ = Ok (Overview.leader_stats o).
Proof.
  unfold overview_of. intros Ho.
  ok_step Ho ta Ea. ok_step Ho tv Ev. ok_step Ho to Eo. ok_step Ho td Ed.
  ok_step Ho zs Ez. ok_step Ho ls El. by injection Ho as <-.
Qed.


Lemma count_bounds (p q : ServiceRecord.t F → bool) (rows : list (Row F)) :
  (∀ r, p r = true → q r = false) →
  0 ≤ count p rows ∧ 0 ≤ count q rows
  ∧ count p rows + count q rows ≤ Z.of_nat (length rows)
  ∧ (count p rows + count q rows = Z.of_nat (length rows)
     ↔ Forall (λ row : Row F, p row.1 || q row.1 = true) rows).
Proof.
  intros Hpq. unfold count.
  induction rows as [|row rows (IH1 & IH2 & IH3 & IH4)]; simpl.
  { repeat split; try lia. constructor. }
  rewrite Forall_cons.
  destruct (p row.1) eqn:Ep; [rewrite (Hpq _ Ep)|destruct (q row.1) eqn:Eq];
    simpl length; simpl orb;
    (split; [lia|split; [lia|split; [lia|]]]); rewrite <- IH4.
  - split; [intros; split; [done|lia]|intros [_ ?]; lia].
  - split; [intros; split; [done|lia]|intros [_ ?]; lia].
  - split; [intros; lia|by intros [? _]].
Qed.

End OverviewParts.



(** X8.  Every record the overview selects is counted in [total_records];
    the Sunday services and the cell meetings are counted apart, and
    together they are all the records exactly when no record has another
    type. *)
Theorem service_counts_within_records {F : Type} `{Amount F}
    period start_date end_date (records : list (Row F)) (o : Overview.t F) :
  overview_of period start_date end_date records = Ok o →
  0 ≤ Overview.sunday_services o ∧ 0 ≤ Overview.cell_meetings o
  ∧ Overview.sunday_services o + Overview.cell_meetings o
    ≤ Overview.total_records o
  ∧ (Overview.sunday_services o + Overview.cell_meetings o
     = Overview.total_records o
     ↔ Forall (λ row : Row F, is_sunday row.1 || is_cell row.1 = true) records).
Proof.
  intros Ho. destruct (overview_of_parts _ _ _ _ _ Ho) as (-> & -> & -> & _).
  apply count_bounds. intros r. unfold is_sunday, is_cell.
  intros E%String.eqb_eq. by rewrite E.
Qed.

Lemma service_counts_within_records_witness :
  ∃ o, analytics_overview exact_store a_monday None None None = Ok o
       ∧ Overview.sunday_services o = 1 ∧ Overview.cell_meetings o = 3
       ∧ Overview.sunday_services o + Overview.cell_meetings o
         ≤ Overview.total_records o.
Proof.
  destruct (analytics_overview exact_store a_monday None None None)
    as [o|] eqn:Eo; [|by vm_compute in Eo].
  exists o. split; [done|].
  destruct (service_counts_within_records _ _ _ _ o Eo) as (_ & _ & Hle & _).
  assert (Overview.sunday_services o = 1 ∧ Overview.cell_meetings o = 3)
    as [E1 E2].
  { vm_compute in Eo. injection Eo as <-. by split. }
  by repeat split.
Defined.

Lemma fmap_Some_is_Some {A B} (f : A → option B) (l : list A) (xs : list B) :
  f <$> l = Some <$> xs → Forall (λ a, is_Some (f a)) l.
Proof.
  revert xs. induction l as [|a l IH]; intros [|x xs] E; try done.
  injection E as E1 E2. constructor; [by rewrite E1|eauto].
Qed.

(** X9.  The overview and the trends of a selection are computed exactly
    when every selected record holds the readings of its type: a NULL among
    them makes both handlers fail. *)
Theorem statistics_need_readings {F : Type} `{Amount F}
    period start_date end_date (records : list (Row F)) :
  let complete :=
    Forall (λ row : Row F,
              is_Some (attendance_of row.1) ∧ is_Some (visitors_of row.1)
              ∧ is_Some (offering_of row.1) ∧ is_Some (decisions_of row.1))
      records in
  (is_ok (overview_of period start_date end_date records) = true ↔ complete)
  ∧ (is_ok (trends_of period records) = true ↔ complete).
Proof.
  intros complete.
  pose proof (@fmap_Some_is_Some (Row F)) as Hsome.
  split; (split; [|by (apply overview_of_total || apply trends_of_total)]).
  - intros [o Ho]%is_ok_Ok.
    apply overview_of_inv in Ho as (? & ? & ? & ? & Ha & Hv & Hof & Hd & _).
    apply Hsome in Ha, Hv, Hof, Hd. unfold complete.
    rewrite Forall_forall in *. naive_solver.
  - intros [b Hb]%is_ok_Ok. unfold trends_of in Hb. ok_step Hb trends Et.
    apply (loop_readings (λ row : Row F, date_key period row.1)) in Et
      as (? & ? & ? & ? & Ha & Hv & Hof & Hd).
    apply Hsome in Ha, Hv, Hof, Hd. unfold complete.
    rewrite Forall_forall in *. naive_solver.
Qed.

(** ** The export and the recent submissions *)

(** *** The order of dates and timestamps *)

Lemma date_leb_trans (a b c : Date.t) :
  date_leb a b = true → date_leb b c = true → date_leb a c = true.
Proof.
  unfold date_leb.
  destruct (Z.compare_spec (Date.year a) (Date.year b)),
    (Z.compare_spec (Date.year b) (Date.year c)),
    (Z.compare_spec (Date.year a) (Date.year c)); try done; try lia;
  destruct (Z.compare_spec (Date.month a) (Date.month b)),
    (Z.compare_spec (Date.month b) (Date.month c)),
    (Z.compare_spec (Date.month a) (Date.month c)); try done; lia.
Qed.

Lemma date_leb_total (a b : Date.t) : date_leb a b = true ∨ date_leb b a = true.
Proof.
  unfold date_leb.
  destruct (Z.compare_spec (Date.year a) (Date.year b)),
    (Z.compare_spec (Date.year b) (Date.year a)); auto; try lia;
  destruct (Z.compare_spec (Date.month a) (Date.month b)),
    (Z.compare_spec (Date.month b) (Date.month a)); auto; lia.
Qed.

Lemma lex_leb_trans (a b c : list Z) :
  lex_leb a b = true → lex_leb b c = true → lex_leb a c = true.
Proof.
  revert b c. induction a as [|x a IH]; intros [|y b] [|z c]; simpl; try done.
  destruct (Z.compare_spec x y), (Z.compare_spec y z), (Z.compare_spec x z);
    try done; try lia. apply IH.
Qed.

Lemma lex_leb_total (a b : list Z) : lex_leb a b = true ∨ lex_leb b a = true.
Proof.
  revert b. induction a as [|x a IH]; intros [|y b]; simpl; auto.
  destruct (Z.compare_spec x y), (Z.compare_spec y x); auto; lia.
Qed.

Lemma stamp_leb_trans (a b c : option DateTime.t) :
  stamp_leb a b = true → stamp_leb b c = true → stamp_leb a c = true.
Proof.
  destruct a, b, c; unfold stamp_leb; try done. apply lex_leb_trans.
Qed.

Lemma stamp_leb_total (a b : option DateTime.t) :
  stamp_leb a b = true ∨ stamp_leb b a = true.
Proof. destruct a, b; unfold stamp_leb; auto. apply lex_leb_total. Qed.

Lemma StronglySorted_weaken {A} (R S : relation A) (l : list A) :
  (∀ a b, R a b → S a b) → StronglySorted R l → StronglySorted S l.
Proof.
  intros HRS. induction 1 as [|a l Hs IH Hall]; constructor; [done|].
  eapply Forall_impl; eauto.
Qed.

Lemma List_filter_none {A} (p : A → bool) (l : list A) :
  (∀ x, x ∈ l → p x = false) → List.filter p l = [].
Proof.
  induction l as [|a l IH]; intros Hp; [done|]. simpl.
  rewrite (Hp a) by left. apply IH. intros x Hx. apply Hp. by right.
Qed.

Section ListingFacts.
Context {F : Type} `{Amount F}.

Lemma by_date_desc_sorted (rows : list (Row F)) :
  StronglySorted
    (λ a b : Row F,
       date_leb (ServiceRecord.service_date b.1) (ServiceRecord.service_date a.1)
       = true)
    (by_date_desc rows)
  ∧ by_date_desc rows ≡ₚ rows.
Proof.
  unfold by_date_desc. split; [|apply merge_sort_Permutation].
  eapply StronglySorted_weaken; [|apply StronglySorted_merge_sort].
  - intros a b Hab. by apply Is_true_true.
  - intros a b c Hab Hbc. apply Is_true_true. apply Is_true_true in Hab, Hbc.
    eauto using date_leb_trans.
  - intros a b.
    destruct (date_leb_total (ServiceRecord.service_date b.1)
                (ServiceRecord.service_date a.1)) as [E|E]; rewrite E; auto.
Qed.

End ListingFacts.

(** X10.  The export writes the newest service date first, and writes
    exactly the joined records inside the bounds that were given, one line
    each after the header. *)
Theorem export_newest_first {F : Type} `{Amount F}
    (s : Store F) (start_date end_date : option Date.t) (zone_filter : string) :
  let selection := export_selection s start_date end_date zone_filter in
  StronglySorted
    (λ a b : Row F,
       date_leb (ServiceRecord.service_date b.1) (ServiceRecord.service_date a.1)
       = true)
    selection
  ∧ (∀ row : Row F,
       row ∈ selection
       ↔ row ∈ joined s
         ∧ (∀ d, start_date = Some d →
              date_leb d (ServiceRecord.service_date row.1) = true)
         ∧ (∀ d, end_date = Some d →
              date_leb (ServiceRecord.service_date row.1) d = true)
         ∧ (zone_filter ≠ "" → Leader.zone row.2 = zone_filter))
  ∧ (∀ rows, csv_of selection = Ok rows → length rows = S (length selection)).
Proof.
  intros selection. subst selection. unfold export_selection.
  match goal with |- context [by_date_desc ?l] =>
    destruct (by_date_desc_sorted l) as [Hs Hp] end.
  split; [done|]. split.
  - intros row. rewrite Hp, elem_of_List_filter.
    unfold when, in_zone, truthy. rewrite !andb_true_iff.
    split.
    + intros (Hj & [Ha Hb] & Hz). repeat split; try done.
      * intros d ->. done.
      * intros d ->. done.
      * intros Hne. apply eqb_other in Hne. rewrite Hne in Hz.
        by apply String.eqb_eq in Hz.
    + intros (Hj & Ha & Hb & Hz). repeat split; try done.
      * destruct start_date; eauto.
      * destruct end_date; eauto.
      * destruct (String.eqb_spec zone_filter ""); [done|]. simpl.
        by apply String.eqb_eq, Hz.
  - intros rows. unfold csv_of. intros Hr. ok_step Hr body Eb.
    injection Hr as <-. simpl. f_equal.
    apply (collect_Forall2 _ (λ _ _, True)) in Eb; [|done].
    by apply Forall2_length in Eb.
Qed.

(** X11.  Bounds the wrong way round select nothing: the export is the
    header alone. *)
Theorem export_inverted_range_header_only {F : Type} `{Amount F}
    (s : Store F) (start_text end_text : string) (zone_arg : option string)
    (start_date end_date : Date.t) :
  strptime_Ymd start_text = Ok start_date →
  strptime_Ymd end_text = Ok end_date →
  date_leb start_date end_date = false →
  export_csv s (Some start_text) (Some end_text) zone_arg = Ok [csv_header].
Proof.
  intros Ea Eb Hab. unfold export_csv, date_arg.
  destruct start_text as [|c1 t1]; [discriminate Ea|].
  destruct end_text as [|c2 t2]; [discriminate Eb|].
  cbn [truthy String.eqb negb]. rewrite Ea, Eb. cbn [mbind res_bind].
  unfold export_selection. rewrite List_filter_none; [done|].
  intros row _. apply not_true_is_false. rewrite !andb_true_iff.
  intros [[Ha Hb] _]. by rewrite (date_leb_trans _ _ _ Ha Hb) in Hab.
Qed.

Lemma export_inverted_range_header_only_witness :
  export_csv sample_store (Some "2024-02-01") (Some "2024-01-01") None
  = Ok [csv_header].
Proof.
  by apply (export_inverted_range_header_only sample_store "2024-02-01"
              "2024-01-01" None (Date.mk 2024 2 1) (Date.mk 2024 1 1)).
Defined.

(** X12.  The recent submissions are at most twenty, and no joined record
    left out was submitted after one that is listed. *)
Theorem recent_submissions_are_latest {F : Type} `{Amount F}
    (s : Store F) (entries : list (Submission.t F)) :
  recent_submissions s = Ok entries →
  ∃ rows : list (Row F),
    Forall2 (λ row entry, submission_of row = Ok entry) rows entries
    ∧ length entries = Nat.min 20 (length (joined s))
    ∧ (∀ row, row ∈ rows → row ∈ joined s)
    ∧ ∀ row other : Row F,
        row ∈ rows → other ∈ joined s → other ∉ rows →
        stamp_leb (ServiceRecord.submitted_at other.1)
          (ServiceRecord.submitted_at row.1) = true.
Proof.
  unfold recent_submissions.
  set (R := λ a b : Row F,
              Is_true (stamp_leb (ServiceRecord.submitted_at b.1)
                         (ServiceRecord.submitted_at a.1))).
  intros Hc. exists (take 20 (merge_sort R (joined s))).
  assert (Hs : StronglySorted R (merge_sort R (joined s))).
  { apply StronglySorted_merge_sort.
    - intros a b c Hab Hbc. apply Is_true_true. apply Is_true_true in Hab, Hbc.
      eauto using stamp_leb_trans.
    - intros a b.
      destruct (stamp_leb_total (ServiceRecord.submitted_at b.1)
                  (ServiceRecord.submitted_at a.1)) as [E|E];
        unfold R; rewrite E; auto. }
  pose proof (merge_sort_Permutation R (joined s)) as Hp.
  split; [by apply (collect_Forall2 _ (λ row entry, submission_of row = Ok entry))
            in Hc|].
  split.
  { apply (collect_Forall2 _ (λ _ _, True)) in Hc; [|done].
    apply Forall2_length in Hc. rewrite <- Hc, length_take.
    by rewrite (Permutation_length Hp). }
  split.
  { intros row Hr. rewrite <- Hp. by eapply elem_of_take in Hr as (i & ?%list_elem_of_lookup_2 & _). }
  intros row other Hrow Hother Hout.
  rewrite <- (take_drop 20 (merge_sort R (joined s))) in Hs, Hp.
  rewrite <- Hp in Hother. apply elem_of_app in Hother as [?|Hd]; [done|].
  revert Hs Hrow Hd. generalize (take 20 (merge_sort R (joined s))).
  generalize (drop 20 (merge_sort R (joined s))). intros tl hd Hs Hrow Hd.
  induction hd as [|a hd IH]; [by apply elem_of_nil in Hrow|].
  simpl in Hs. apply StronglySorted_inv in Hs as [Hs Hall].
  apply elem_of_cons in Hrow as [->|Hrow]; [|by apply IH].
  apply Is_true_true. eapply Forall_forall in Hall; [exact Hall|].
  apply elem_of_app. by right.
Qed.

Lemma recent_submissions_are_latest_witness :
  ∃ entries,
    recent_submissions sample_store = Ok entries
    ∧ Submission.id <$> entries = [4; 1; 2; 3]
    ∧ length entries = Nat.min 20 (length (joined sample_store)).
Proof.
  destruct (recent_submissions sample_store) as [entries|] eqn:E;
    [|by vm_compute in E].
  exists entries. split; [done|].
  destruct (recent_submissions_are_latest sample_store entries E)
    as (rows & _ & Hn & _).
  split; [|done]. vm_compute in E. by injection E as <-.
Defined.

Lemma zone_loop_keys {F : Type} `{Amount F}
    (rows : list (Row F)) (m m' : gmap string (Stats.t F)) (k : string) :
  for_each zone_step rows m = Ok m' →
  is_Some (m' !! k)
  ↔ is_Some (m !! k) ∨ ∃ row : Row F, row ∈ rows ∧ Leader.zone row.2 = k.
Proof.
  revert m. induction rows as [|row rows IH]; intros m Hm; simpl in Hm.
  - injection Hm as <-. split; [auto|]. intros [?|(? & []%elem_of_nil & _)]. done.
  - ok_step Hm m1 E1. rewrite (IH _ Hm). unfold zone_step, group_step in E1.
    ok_step E1 g Eg. injection E1 as <-.
    destruct (decide (Leader.zone row.2 = k)) as [<-|Hne].
    + rewrite lookup_insert_eq. split; [|eauto]. intros _. right. exists row.
      split; [left|done].
    + rewrite lookup_insert_ne by done. split.
      * intros [?|(r & Hr & Hz)]; [by left|]. right. exists r. split; [by right|done].
      * intros [?|(r & Hr & Hz)]; [by left|].
        apply elem_of_cons in Hr as [->|Hr]; [done|]. right. eauto.
Qed.

(** X13.  The zone groups of the overview are the zones of the leaders of
    the selected records; with a zone filter there is no group but that of
    the filter. *)
Theorem zone_groups_follow_selection {F : Type} `{Amount F}
    (s : Store F) (today : Date.t) (period_arg leader_id_arg : option string)
    (zone_filter : string) (o : Overview.t F) :
  analytics_overview s today period_arg (Some zone_filter) leader_id_arg = Ok o →
  (∀ zone,
     is_Some (Overview.zone_stats o !! zone)
     ↔ ∃ row : Row F,
         row ∈ select s (period_start (default "week" period_arg) today) today
                 zone_filter (default "" leader_id_arg)
         ∧ Leader.zone row.2 = zone)
  ∧ (zone_filter ≠ "" →
     ∀ zone, is_Some (Overview.zone_stats o !! zone) → zone = zone_filter).
Proof.
  unfold analytics_overview. cbn [default from_option id].
  set (records := select _ _ _ _ _). intros Ho.
  apply overview_of_inv in Ho as (_ & _ & _ & _ & _ & _ & _ & _ & _ & _ & _ & _ & Hz & _).
  assert (Hk : ∀ zone,
    is_Some (Overview.zone_stats o !! zone)
    ↔ ∃ row : Row F, row ∈ records ∧ Leader.zone row.2 = zone).
  { intros zone. rewrite (zone_loop_keys _ _ _ zone Hz), lookup_empty.
    split; [intros [[? [=]]|?]; done|auto]. }
  split; [done|]. intros Hne zone [row [Hrow <-]]%Hk.
  subst records. unfold select in Hrow.
  apply elem_of_List_filter in Hrow as [_ Hrow].
  rewrite !andb_true_iff in Hrow. destruct Hrow as [[_ Hrow] _].
  unfold when, truthy, in_zone in Hrow. rewrite (eqb_other _ _ Hne) in Hrow.
  by apply String.eqb_eq in Hrow.
Qed.

Lemma zone_groups_follow_selection_witness :
  ∃ o,
    analytics_overview exact_store a_monday None (Some "Chestnut") None = Ok o
    ∧ (map_to_list (Overview.zone_stats o)).*1 = ["Chestnut"]
    ∧ ∀ zone, is_Some (Overview.zone_stats o !! zone) → zone = "Chestnut".
Proof.
  destruct (analytics_overview exact_store a_monday None (Some "Chestnut") None)
    as [o|] eqn:Eo; [|by vm_compute in Eo].
  exists o. split; [done|].
  destruct (zone_groups_follow_selection exact_store a_monday None None
              "Chestnut" o Eo) as [_ Hz].
  split; [|by apply Hz]. vm_compute in Eo. by injection Eo as <-.
Defined.

(** ** Restoring and submitting *)

(** X14.  A restore that succeeds does not look at what the store held: the
    same upload gives the same store from any store, and its primary keys
    are distinct. *)
Theorem restore_replaces_store {F : Type} `{Amount F}
    (s1 s2 s' : Store F) (now : DateTime.t) (file : option (Upload F)) :
  restore_data s1 now file = (Restored, s') →
  restore_data s2 now file = (Restored, s') ∧ keys_distinct s'.
Proof.
  unfold restore_data. destruct file as [file|]; [|done].
  destruct (String.eqb _ ""); [done|].
  destruct (truthy _ && endswith _ _); [|done].
  destruct (restore_transaction now file) as [s0|e] eqn:Et; [|done].
  intros [= ->]. split; [done|].
  unfold restore_transaction in Et.
  ok_step Et data E1. ok_step Et ld E2. ok_step Et ls E3. ok_step Et nl E4.
  ok_step Et rd E5. ok_step Et rs E6. ok_step Et nr E7.
  by apply commit_inv in Et as [-> ?].
Qed.

Lemma restore_replaces_store_witness :
  restore_data (mkStore [] []) stamp_b (Some (backup_upload sample_store stamp_a))
  = (Restored, sample_store)
  ∧ restore_data rounding_store stamp_b
      (Some (backup_upload sample_store stamp_a))
    = (Restored, sample_store)
  ∧ keys_distinct sample_store.
Proof.
  assert (E : restore_data (mkStore [] []) stamp_b
                (Some (backup_upload sample_store stamp_a))
              = (Restored, sample_store)) by by vm_compute.
  split; [done|].
  exact (restore_replaces_store (mkStore [] []) rounding_store sample_store
           stamp_b (Some (backup_upload sample_store stamp_a)) E).
Defined.

(** X15.  A JSON object that names neither table is a valid backup of
    nothing: uploaded under a name ending in [.json], it empties both
    tables. *)
Theorem restore_without_tables_empties {F : Type} `{Amount F}
    (s : Store F) (now : DateTime.t) (name : string)
    (fields : gmap string (json F)) :
  endswith name ".json" = true →
  fields !! "leaders" = None → fields !! "service_records" = None →
  restore_data s now (Some (mkUpload name (Some (JObj fields))))
  = (Restored, mkStore [] []).
Proof.
  intros Hn Hl Hr. unfold restore_data. cbn [filename content].
  pose proof (endswith_nonempty _ _ Hn) as Ht.
  rewrite Ht, Hn by done. unfold truthy in Ht.
  destruct (String.eqb name ""); [by discriminate Ht|].
  cbn [andb]. unfold restore_transaction. cbn [content need get mbind res_bind].
  by rewrite Hl, Hr.
Qed.

Lemma restore_without_tables_empties_witness :
  restore_data sample_store stamp_b (Some (mkUpload "settings.json" (Some (JObj ∅))))
  = (Restored, mkStore [] []).
Proof.
  by apply (restore_without_tables_empties sample_store stamp_b "settings.json" ∅).
Defined.

Section SubmitJoin.
Context {F : Type} `{Amount F}.

Lemma submit_transaction_record (s s' : Store F) now data record_id :
  submit_transaction s now data = Ok (record_id, s') →
  ∃ record,
    s' = mkStore (leaders s) (service_records s ++ [record])%list
    ∧ ServiceRecord.id record = record_id
    ∧ record_id = next_id (ServiceRecord.id <$> service_records s)
    ∧ int_column (value_of data "leader_id" JNull)
      = Ok (Some (ServiceRecord.leader_id record))
    ∧ ServiceRecord.submitted_at record = Some now
    ∧ keys_distinct s'.
Proof.
  unfold submit_transaction. intros Hs.
  ok_next Hs v_leader E1. ok_next Hs v_type E2. ok_next Hs v_date E3.
  ok_next Hs date E4. ok_next Hs v_notes E5. ok_next Hs vs E7.
  destruct vs as [[[[[sa sv] ca] cv] co] cd].
  ok_next Hs leader_id E8. ok_next Hs service_type E9.
  ok_next Hs a1 E10. ok_next Hs a2 E11. ok_next Hs a3 E12. ok_next Hs a4 E13.
  ok_next Hs a5 E14. ok_next Hs a6 E15. ok_next Hs notes E16.
  ok_next Hs s0 E17. injection Hs as <- <-.
  apply commit_inv in E17 as [-> Hk].
  eexists (ServiceRecord.mk _ _ _ _ _ _ _ _ _ _ _ _).
  repeat split; try done; try apply Hk.
  destruct data as [| | | | |?|fields]; try discriminate E1.
  cbn [item value_of] in *. apply need_ok in E1. rewrite E1.
  cbn [default from_option id ServiceRecord.leader_id].
  unfold not_null in E8. ok_next E8 o E18. apply need_ok in E8. by subst o.
Qed.

Lemma joined_append (s : Store F) (record : ServiceRecord.t F) :
  joined (mkStore (leaders s) (service_records s ++ [record])%list)
  = (joined s ++ match leader_of s record with
                 | Some leader => [(record, leader)]
                 | None => []
                 end)%list.
Proof.
  unfold joined. cbn [leaders service_records]. rewrite omap_app.
  f_equal. cbn [omap list_omap]. unfold leader_of at 1. cbn [leaders].
  fold (leader_of s record). by destruct (leader_of s record).
Qed.

Lemma leader_of_none (s : Store F) (record : ServiceRecord.t F) :
  ServiceRecord.leader_id record ∉ Leader.id <$> leaders s →
  leader_of s record = None.
Proof.
  intros Hn. unfold leader_of.
  destruct (List.find _ (leaders s)) as [l|] eqn:E; [|done].
  apply find_some in E as [Hin E%Z.eqb_eq]. destruct Hn.
  rewrite <- E. apply list_elem_of_fmap. exists l.
  by rewrite list_elem_of_In.
Qed.

End SubmitJoin.

(** X16.  A submission that is accepted adds one record, and the join gains
    the row of that record exactly when its leader exists. *)
Theorem submit_extends_join {F : Type} `{Amount F}
    (s s' : Store F) (now : DateTime.t) (data : json F) (record_id : Z) :
  submit_totals s now data = (Submitted record_id, s') →
  ∃ record,
    leaders s' = leaders s
    ∧ service_records s' = (service_records s ++ [record])%list
    ∧ ServiceRecord.id record = record_id
    ∧ ServiceRecord.submitted_at record = Some now
    ∧ joined s' = (joined s ++ match leader_of s record with
                               | Some leader => [(record, leader)]
                               | None => []
                               end)%list.
Proof.
  unfold submit_totals.
  destruct (submit_transaction s now data) as [[i s0]|] eqn:Es; [|done].
  intros [= -> ->].
  apply submit_transaction_record in Es as (record & -> & Hi & _ & _ & Hn & _).
  exists record. repeat split; try done. apply joined_append.
Qed.

Lemma submit_extends_join_witness :
  ∃ s' record,
    submit_totals sample_store stamp_b full_cell = (Submitted 5, s')
    ∧ service_records s' = (service_records sample_store ++ [record])%list
    ∧ length (joined s') = 5%nat.
Proof.
  destruct (submit_totals sample_store stamp_b full_cell) as [r s'] eqn:E.
  assert (r = Submitted 5) as -> by (by vm_compute in E; injection E as <- _).
  destruct (submit_extends_join sample_store s' stamp_b full_cell 5 E)
    as (record & _ & Hr & _ & _ & _).
  exists s', record. split; [done|]. split; [done|].
  vm_compute in E. by injection E as <-.
Defined.

(** X17.  The store does not check the foreign key: a submission that names
    a leader who does not exist is accepted and counted by the public
    counters, but no view built on the join ever shows it. *)
Theorem submit_for_missing_leader_unlisted {F : Type} `{Amount F}
    (s s' : Store F) (now : DateTime.t) (data : json F) (record_id n : Z)
    (today : Date.t) :
  submit_totals s now data = (Submitted record_id, s') →
  value_of data "leader_id" JNull = JInt n →
  n ∉ Leader.id <$> leaders s →
  joined s' = joined s
  ∧ (∀ period zone leader,
       analytics_overview s' today period zone leader
       = analytics_overview s today period zone leader)
  ∧ (∀ period zone,
       analytics_trends s' today period zone = analytics_trends s today period zone)
  ∧ (∀ start_date end_date zone,
       export_csv s' start_date end_date zone = export_csv s start_date end_date zone)
  ∧ recent_submissions s' = recent_submissions s
  ∧ total_submissions (stats_overview s' today)
    = total_submissions (stats_overview s today) + 1.
Proof.
  unfold submit_totals.
  destruct (submit_transaction s now data) as [[i s0]|] eqn:Es; [|done].
  intros [= -> ->] Hv Hn.
  apply submit_transaction_record in Es as (record & -> & _ & _ & Hl & _ & _).
  rewrite Hv in Hl. injection Hl as Hl.
  assert (Hj : joined (mkStore (leaders s) (service_records s ++ [record]))
               = joined s).
  { rewrite joined_append, leader_of_none, app_nil_r; [done|by rewrite <- Hl]. }
  split; [done|].
  unfold analytics_overview, analytics_trends, export_csv, export_selection,
    recent_submissions, select.
  rewrite Hj. repeat split; try done.
  cbn [stats_overview total_submissions service_records].
  rewrite length_app. simpl. lia.
Qed.

Lemma submit_for_missing_leader_unlisted_witness :
  ∃ s',
    submit_totals sample_store stamp_b stray_cell = (Submitted 5, s')
    ∧ joined s' = joined sample_store
    ∧ recent_submissions s' = recent_submissions sample_store
    ∧ total_submissions (stats_overview s' a_monday) = 5.
Proof.
  destruct (submit_totals sample_store stamp_b stray_cell) as [r s'] eqn:E.
  assert (r = Submitted 5) as -> by (by vm_compute in E; injection E as <- _).
  exists s'. split; [done|].
  destruct (submit_for_missing_leader_unlisted sample_store s' stamp_b stray_cell
              5 99 a_monday E) as (Hj & _ & _ & _ & Hr & Ht).
  - reflexivity.
  - vm_compute. intros Hin. by repeat (apply elem_of_cons in Hin as [?|Hin];
      [done|]; try by apply elem_of_nil in Hin).
  - by rewrite Ht.
Defined.

(** ** Listing leaders *)

Lemma collect_fmap_eq {A B C} (f : A → res B) (g : B → C) (h : A → C) xs ys :
  (∀ x y, f x = Ok y → g y = h x) → collect f xs = Ok ys → g <$> ys = h <$> xs.
Proof.
  intros Hf Hc.
  apply (collect_Forall2 _ (λ x y, g y = h x)) in Hc; [|done].
  induction Hc as [|x y xs ys E _ IH]; [done|]. by rewrite !fmap_cons, E, IH.
Qed.

Lemma collect_Forall {A B} (f : A → res B) (Q : A → Prop) (P : B → Prop) xs ys :
  (∀ x y, Q x → f x = Ok y → P y) → Forall Q xs → collect f xs = Ok ys →
  Forall P ys.
Proof.
  intros Hf Hq Hc.
  apply (collect_Forall2 _ (λ x y, f x = Ok y)) in Hc; [|done].
  induction Hc as [|x y xs ys E _ IH]; [constructor|].
  apply Forall_cons in Hq as [Hx Hq]. constructor; eauto.
Qed.

Lemma max_from_stamped (best : DateTime.t) (stamps : list (option DateTime.t)) :
  Forall is_Some stamps → ∃ latest, max_from (Some best) stamps = Ok (Some latest).
Proof.
  intros Hs. revert best. induction Hs as [|stamp stamps [t ->] Hs IH];
    intros best; cbn [max_from]; [by eexists|].
  destruct (lex_leb (datetime_fields t) (datetime_fields best)); apply IH.
Qed.

Section LeaderFacts.
Context {F : Type} `{Amount F}.

Lemma listed_of_inv (s : Store F) leader entry :
  listed_of s leader = Ok entry →
  Listed.detail entry = detail_of leader
  ∧ Listed.total_submissions entry = Z.of_nat (length (records_of s leader))
  ∧ (Listed.last_submission entry = "Never" ↔ Listed.total_submissions entry = 0).
Proof.
  unfold listed_of. intros Hl. ok_step Hl shown El. injection Hl as <-.
  split; [done|]. split; [done|]. cbn [Listed.last_submission Listed.total_submissions].
  destruct (records_of s leader) as [|r rs]; simpl in El.
  - by injection El as <-.
  - ok_step El latest E1. ok_step El t E2. injection El as <-.
    split; [|simpl; lia]. intros E.
    pose proof (strftime_Ymd_length (DateTime.date t)) as Hlen.
    by rewrite E in Hlen.
Qed.

Lemma listed_of_total (s : Store F) leader :
  Forall (λ r : ServiceRecord.t F, is_Some (ServiceRecord.submitted_at r))
    (service_records s) →
  is_ok (listed_of s leader) = true.
Proof.
  intros Hs. unfold listed_of.
  assert (Hr : Forall (λ r : ServiceRecord.t F, is_Some (ServiceRecord.submitted_at r))
                 (records_of s leader)).
  { apply Forall_forall. intros r [Hr _]%elem_of_List_filter.
    by eapply Forall_forall in Hs. }
  destruct (records_of s leader) as [|r rs]; [done|].
  apply Forall_cons in Hr as [[t Et] Hr]. rewrite fmap_cons, Et.
  destruct (max_from_stamped t (ServiceRecord.submitted_at <$> rs))
    as [latest ->]; [by apply Forall_fmap|]. done.
Qed.

End LeaderFacts.

Lemma StronglySorted_fmap {A B} (f : A → B) (R : relation A) (S : relation B) l :
  (∀ a b, R a b → S (f a) (f b)) →
  StronglySorted R l → StronglySorted S (f <$> l).
Proof.
  intros HRS. induction 1 as [|a l Hs IH Hall]; [constructor|].
  rewrite fmap_cons. constructor; [done|].
  apply Forall_fmap. eapply Forall_impl; [exact Hall|]. intros b. apply HRS.
Qed.

(** X18.  The leaders are listed in ascending order of their names; unless
    [active_only] is given another value than [true] they are all active,
    with a zone filter they are all of that zone, and [last_submission]
    reads [Never] exactly for those without a submission. *)
Theorem get_leaders_by_name {F : Type} `{Amount F}
    (s : Store F) (zone_arg active_only_arg : option string)
    (entries : list Listed.t) :
  get_leaders s zone_arg active_only_arg = Ok entries →
  StronglySorted (λ a b, String.leb a b = true)
    ((λ entry, Detail.name (Listed.detail entry)) <$> entries)
  ∧ (default "true" active_only_arg = "true" →
     Forall (λ entry, Detail.is_active (Listed.detail entry) = Some true) entries)
  ∧ (default "" zone_arg ≠ "" →
     Forall (λ entry, Detail.zone (Listed.detail entry) = default "" zone_arg)
       entries)
  ∧ Forall (λ entry, Listed.last_submission entry = "Never"
                     ↔ Listed.total_submissions entry = 0) entries.
Proof.
  unfold get_leaders.
  set (R := λ a b : Leader.t, Is_true (String.leb (Leader.name a) (Leader.name b))).
  set (keep := λ l : Leader.t, _ && _).
  intros Hc.
  assert (Hs : StronglySorted R (merge_sort R (List.filter keep (leaders s)))).
  { apply StronglySorted_merge_sort.
    - intros a b c Hab Hbc. apply Is_true_true. apply Is_true_true in Hab, Hbc.
      eauto using string_leb_trans.
    - intros a b. unfold R.
      destruct (String.leb_total (Leader.name a) (Leader.name b)) as [E|E];
        rewrite E; auto. }
  assert (Hk : Forall (λ l, keep l = true)
                 (merge_sort R (List.filter keep (leaders s)))).
  { apply Forall_forall. intros l.
    rewrite merge_sort_Permutation. by intros [_ ?]%elem_of_List_filter. }
  split.
  { assert (Hn : (λ entry, Detail.name (Listed.detail entry)) <$> entries
                  = Leader.name <$> merge_sort R (List.filter keep (leaders s))).
    { eapply collect_fmap_eq; [|exact Hc]. by intros l e (-> & _)%listed_of_inv. }
    rewrite Hn. eapply StronglySorted_fmap; [|exact Hs]. intros a b Hab.
    by apply Is_true_true. }
  split.
  { intros Ha. eapply collect_Forall; [|exact Hk|exact Hc].
    intros l e Hl (-> & _)%listed_of_inv. unfold keep in Hl.
    rewrite Ha in Hl. apply andb_prop in Hl as [_ Hl].
    by apply is_active_true_iff in Hl. }
  split.
  { intros Hz. eapply collect_Forall; [|exact Hk|exact Hc].
    intros l e Hl (-> & _)%listed_of_inv. unfold keep in Hl.
    apply andb_prop in Hl as [Hl _]. unfold truthy in Hl.
    rewrite (eqb_other _ _ Hz) in Hl. by apply String.eqb_eq in Hl. }
  eapply collect_Forall; [|exact Hk|exact Hc].
  by intros l e _ (_ & _ & ?)%listed_of_inv.
Qed.

Lemma get_leaders_by_name_witness :
  ∃ entries,
    get_leaders sample_store None None = Ok entries
    ∧ (λ entry, Detail.name (Listed.detail entry)) <$> entries
      = ["Leader 1"; "Leader 2"]
    ∧ Listed.last_submission <$> entries = ["2024-01-04"; "2024-01-08"]
    ∧ StronglySorted (λ a b, String.leb a b = true)
        ((λ entry, Detail.name (Listed.detail entry)) <$> entries).
Proof.
  destruct (get_leaders sample_store None None) as [entries|] eqn:E;
    [|by vm_compute in E].
  exists entries. split; [done|].
  destruct (get_leaders_by_name sample_store None None entries E) as (Hs & _).
  split; [|split; [|done]]; vm_compute in E; by injection E as <-.
Defined.

(** X19.  When every record carries the time it was submitted at, the list
    of the leaders is computed, whatever the filters. *)
Theorem get_leaders_needs_stamps {F : Type} `{Amount F}
    (s : Store F) (zone_arg active_only_arg : option string) :
  Forall (λ r : ServiceRecord.t F, is_Some (ServiceRecord.submitted_at r))
    (service_records s) →
  is_ok (get_leaders s zone_arg active_only_arg) = true.
Proof.
  intros Hs. unfold get_leaders. apply collect_total, Forall_forall.
  intros l _. by apply listed_of_total.
Qed.

Lemma get_leaders_needs_stamps_witness :
  is_ok (get_leaders sample_store (Some "Chestnut") (Some "false")) = true.
Proof.
  apply (get_leaders_needs_stamps sample_store (Some "Chestnut") (Some "false")).
  repeat constructor; by eexists.
Defined.

(** ** Creating and updating leaders *)

Lemma pictured_store_keys : keys_distinct pictured_store.
Proof. split; apply (bool_decide_unpack _); vm_compute; exact I. Qed.


Section CrudFacts.
Context {F : Type} `{Amount F}.

Lemma leader_by_id_some (s : Store F) j l :
  leader_by_id s j = Some l → l ∈ leaders s ∧ Leader.id l = j.
Proof.
  unfold leader_by_id. intros [Hin E]%find_some.
  split; [by apply list_elem_of_In|by apply Z.eqb_eq].
Qed.

Lemma leader_by_id_none (s : Store F) j :
  j ∉ Leader.id <$> leaders s → leader_by_id s j = None.
Proof.
  intros Hn. destruct (leader_by_id s j) as [l|] eqn:E; [|done].
  apply leader_by_id_some in E as [Hin <-]. destruct Hn.
  apply list_elem_of_fmap. by exists l.
Qed.


Lemma find_replaced (leaders : list Leader.t) (new : Leader.t) j :
  List.find (λ l, Leader.id l =? j)
    ((λ l, if Leader.id l =? Leader.id new then new else l) <$> leaders)
  = if Leader.id new =? j
    then (λ _, new) <$> List.find (λ l, Leader.id l =? j) leaders
    else List.find (λ l, Leader.id l =? j) leaders.
Proof.
  induction leaders as [|l ls IH]; [by destruct (_ =? _)|].
  rewrite fmap_cons. cbn [List.find].
  destruct (Z.eqb_spec (Leader.id l) (Leader.id new)) as [E|E].
  - rewrite E. destruct (Z.eqb_spec (Leader.id new) j); [done|]. by rewrite IH.
  - destruct (Z.eqb_spec (Leader.id l) j) as [E1|E1].
    + destruct (Z.eqb_spec (Leader.id new) j); [congruence|done].
    + by rewrite IH.
Qed.

Lemma put_leader_ids (s : Store F) (new : Leader.t) :
  Leader.id <$> leaders (put_leader s new) = Leader.id <$> leaders s.
Proof.
  unfold put_leader. cbn [leaders]. rewrite <- list_fmap_compose.
  apply list_fmap_ext. intros _ l _. simpl.
  by destruct (Z.eqb_spec (Leader.id l) (Leader.id new)).
Qed.

Lemma put_leader_commit (s : Store F) (new : Leader.t) :
  keys_distinct s → commit (put_leader s new) = Ok (put_leader s new).
Proof.
  intros [Hl Hr]. apply commit_ok. split; [by rewrite put_leader_ids|done].
Qed.

Lemma put_leader_lookup (s : Store F) (new : Leader.t) j :
  leader_by_id (put_leader s new) j
  = if Leader.id new =? j then (λ _, new) <$> leader_by_id s j
    else leader_by_id s j.
Proof. apply find_replaced. Qed.

End CrudFacts.

Ltac got H x :=
  let E := fresh "E" in
  apply is_ok_Ok in H as [x E]; rewrite E; clear E.

Section CreateFacts.
Context {F : Type} `{Amount F}.

Lemma create_transaction_inv (s s' : Store F) now data leader_id :
  create_transaction s now data = Ok (leader_id, s') →
  describes_leader data = true
  ∧ ∃ leader,
      s' = mkStore (leaders s ++ [leader]) (service_records s)
      ∧ Leader.id leader = leader_id
      ∧ leader_id = next_id (Leader.id <$> leaders s)
      ∧ text_column (value_of data "name" JNull) = Ok (Some (Leader.name leader))
      ∧ text_column (value_of data "zone" JNull) = Ok (Some (Leader.zone leader))
      ∧ text_column (value_of data "cell_day" (JStr "Thursday"))
        = Ok (Leader.cell_day leader)
      ∧ Leader.is_active leader = Some true
      ∧ Leader.created_at leader = Some now
      ∧ Leader.updated_at leader = Some now.
Proof.
  unfold create_transaction. intros Hs.
  ok_next Hs v_name E1. ok_next Hs v_zone E2. ok_next Hs v_day E3.
  ok_next Hs v_contact E4. ok_next Hs v_email E5. ok_next Hs v_address E6.
  ok_next Hs v_picture E7.
  ok_next Hs name E8. ok_next Hs zone E9. ok_next Hs day E10.
  ok_next Hs contact E11. ok_next Hs email E12. ok_next Hs address E13.
  ok_next Hs picture E14. ok_next Hs s0 E15. injection Hs as <- <-.
  apply commit_inv in E15 as [-> _].
  destruct data as [| | | | |?|fields]; try discriminate E1.
  cbn [item get] in *. apply need_ok in E1, E2.
  injection E3 as <-. injection E4 as <-. injection E5 as <-.
  injection E6 as <-. injection E7 as <-.
  unfold describes_leader, has_key, value_of. rewrite E1, E2.
  cbn [default from_option id]. rewrite E8, E9, E10, E11, E12, E13, E14.
  split; [by rewrite !bool_decide_eq_true_2 by eauto|].
  eexists (Leader.mk _ _ _ _ _ _ _ _ _ _ _).
  repeat split; cbn [Leader.name Leader.zone Leader.cell_day]; try done.
  - unfold not_null in E8. ok_next E8 o E. apply need_ok in E8. by subst o.
  - unfold not_null in E9. ok_next E9 o E. apply need_ok in E9. by subst o.
Qed.

Lemma create_transaction_ok (s : Store F) now data :
  keys_distinct s → describes_leader data = true →
  is_ok (create_transaction s now data) = true.
Proof.
  intros [Hl Hr] Hd. unfold describes_leader in Hd.
  repeat (apply andb_prop in Hd as [Hd ?]).
  destruct data as [| | | | |?|fields]; try discriminate Hd.
  unfold has_key, value_of in *. unfold create_transaction.
  cbn [item get mbind res_bind].
  match goal with Hk : bool_decide (is_Some (fields !! "zone")) = true |- _ =>
    apply bool_decide_eq_true_1 in Hk as [v_zone E2] end.
  apply bool_decide_eq_true_1 in Hd as [v_name E1].
  rewrite E1, E2 in *. cbn [need default from_option id mbind res_bind] in *.
  repeat match goal with
         | Hk : is_ok ?m = true |- _ =>
             let x := fresh "x" in got Hk x; cbn [mbind res_bind]
         end.
  rewrite commit_ok; [done|]. split; [|done]. cbn [leaders].
  rewrite fmap_app. apply NoDup_app. split; [done|]. split.
  - intros i Hi [->|[]%elem_of_nil]%elem_of_cons. by apply next_id_fresh in Hi.
  - apply NoDup_singleton.
Qed.

End CreateFacts.

(** X20.  A body whose name and zone are strings, and whose other fields are
    strings or null where they are given, is stored as a new leader: it gets
    a key no leader had, is active, and is stamped with the time of the
    request.  A body without a name or without a zone is answered with
    status 400 and changes nothing. *)
Theorem create_leader_outcome {F : Type} `{Amount F}
    (s : Store F) (now : DateTime.t) (data : json F) :
  keys_distinct s →
  (describes_leader data = true →
     ∃ leader,
       create_leader s now data
       = (LeaderCreated (Leader.id leader),
          mkStore (leaders s ++ [leader]) (service_records s))
       ∧ (Leader.id leader ∉ Leader.id <$> leaders s)
       ∧ Leader.is_active leader = Some true
       ∧ Leader.created_at leader = Some now
       ∧ Leader.updated_at leader = Some now)
  ∧ (unnamed data = true →
       ∃ e, create_leader s now data = (Failed 400 (Raised e), s)).
Proof.
  intros Hk. unfold create_leader. split; intros Hd.
  - pose proof (create_transaction_ok s now data Hk Hd) as Hok.
    destruct (create_transaction s now data) as [[i s']|] eqn:Ec; [|done].
    apply create_transaction_inv in Ec
      as (_ & leader & -> & <- & Hi & _ & _ & _ & Ha & Hc & Hu).
    exists leader. repeat split; try done. rewrite Hi. apply next_id_fresh.
  - destruct (create_transaction s now data) as [[i s']|e] eqn:Ec; [|by eexists].
    apply create_transaction_inv in Ec as (_ & leader & _ & _ & _ & Hn & Hz & _).
    unfold unnamed in Hd. apply orb_prop in Hd as [Hd|Hd].
    + by destruct (value_of data "name" JNull).
    + by destruct (value_of data "zone" JNull).
Qed.

Lemma create_leader_outcome_witness :
  keys_distinct sample_store ∧ describes_leader third_leader = true
  ∧ fst (create_leader sample_store stamp_b third_leader) = LeaderCreated 3
  ∧ ∃ e, create_leader sample_store stamp_b (JObj ∅)
         = (Failed 400 (Raised e), sample_store).
Proof.
  assert (keys_distinct sample_store) as Hk.
  { split; apply (bool_decide_unpack _); vm_compute; exact I. }
  split; [exact Hk|]. split; [by vm_compute|]. split; [by vm_compute|].
  destruct (create_leader_outcome sample_store stamp_b (JObj ∅) Hk) as [_ Hr].
  by apply Hr.
Defined.



Section UpdateFacts.
Context {F : Type} `{Amount F}.

Lemma update_transaction_inv (s s' : Store F) now old data :
  update_transaction s now old data = Ok s' →
  ∃ new,
    s' = put_leader s new
    ∧ Leader.id new = Leader.id old
    ∧ Leader.profile_picture new = Leader.profile_picture old
    ∧ Leader.created_at new = Leader.created_at old
    ∧ Leader.updated_at new = Some now
    ∧ text_column (value_of data "name" JNull) = Ok (Some (Leader.name new))
    ∧ text_column (value_of data "zone" JNull) = Ok (Some (Leader.zone new))
    ∧ text_column (value_of data "cell_day" (or_null JStr (Leader.cell_day old)))
      = Ok (Leader.cell_day new)
    ∧ text_column (value_of data "contact_number" (JStr ""))
      = Ok (Leader.contact_number new)
    ∧ text_column (value_of data "email" (JStr "")) = Ok (Leader.email new)
    ∧ text_column (value_of data "address" (JStr "")) = Ok (Leader.address new)
    ∧ bool_column (value_of data "is_active" (JBool true))
      = Ok (Leader.is_active new).
Proof.
  unfold update_transaction. intros Hs.
  ok_next Hs v_name E1. ok_next Hs v_zone E2. ok_next Hs v_day E3.
  ok_next Hs v_contact E4. ok_next Hs v_email E5. ok_next Hs v_address E6.
  ok_next Hs v_active E7.
  ok_next Hs name E8. ok_next Hs zone E9. ok_next Hs day E10.
  ok_next Hs contact E11. ok_next Hs email E12. ok_next Hs address E13.
  ok_next Hs active E14.
  apply commit_inv in Hs as [-> _].
  destruct data as [| | | | |?|fields]; try discriminate E1.
  cbn [item get] in *. apply need_ok in E1, E2.
  injection E3 as <-. injection E4 as <-. injection E5 as <-.
  injection E6 as <-. injection E7 as <-.
  unfold value_of. rewrite E1, E2. cbn [default from_option id].
  eexists (Leader.mk _ _ _ _ _ _ _ _ _ _ _).
  repeat split; cbn [Leader.id Leader.name Leader.zone Leader.cell_day
    Leader.contact_number Leader.email Leader.address Leader.is_active
    Leader.profile_picture Leader.created_at Leader.updated_at]; try done.
  - unfold not_null in E8. ok_next E8 o E. apply need_ok in E8. by subst o.
  - unfold not_null in E9. ok_next E9 o E. apply need_ok in E9. by subst o.
Qed.

End UpdateFacts.

(** X22.  An update that succeeds changes the row it names and nothing else:
    the leader keeps its key, its picture and the time it was created at,
    and is stamped with the time of the request; the other leaders and the
    records are as they were. *)
Theorem update_leader_keeps_identity {F : Type} `{Amount F}
    (s s' : Store F) (now : DateTime.t) (leader_id : Z) (data : json F) :
  update_leader s now leader_id data = (LeaderUpdated, s') →
  (∃ old new,
     leader_by_id s leader_id = Some old
     ∧ leader_by_id s' leader_id = Some new
     ∧ Leader.id new = leader_id
     ∧ Leader.profile_picture new = Leader.profile_picture old
     ∧ Leader.created_at new = Leader.created_at old
     ∧ Leader.updated_at new = Some now)
  ∧ (∀ other, other ≠ leader_id → leader_by_id s' other = leader_by_id s other)
  ∧ Leader.id <$> leaders s' = Leader.id <$> leaders s
  ∧ service_records s' = service_records s.
Proof.
  unfold update_leader. destruct (leader_by_id s leader_id) as [old|] eqn:Eo; [|done].
  destruct (update_transaction s now old data) as [s0|] eqn:Eu; [|done].
  intros [= ->].
  apply update_transaction_inv in Eu as (new & -> & Hid & Hp & Hc & Hu & _).
  pose proof (leader_by_id_some _ _ _ Eo) as [_ Hold]. rewrite Hold in Hid.
  split; [|split; [|split; [apply put_leader_ids|done]]].
  - exists old, new. rewrite put_leader_lookup, Hid, Z.eqb_refl, Eo. by repeat split.
  - intros other Ho. rewrite put_leader_lookup, Hid.
    by destruct (Z.eqb_spec leader_id other).
Qed.

Lemma update_leader_keeps_identity_witness :
  ∃ s' new,
    update_leader pictured_store stamp_b 1 third_leader = (LeaderUpdated, s')
    ∧ leader_by_id s' 1 = Some new
    ∧ Leader.profile_picture new = Some portrait
    ∧ Leader.created_at new = Some stamp_a
    ∧ Leader.updated_at new = Some stamp_b
    ∧ leader_by_id s' 2 = Some leader_two.
Proof.
  destruct (update_leader pictured_store stamp_b 1 third_leader) as [r s'] eqn:E.
  assert (r = LeaderUpdated) as -> by (by vm_compute in E; injection E as <- _).
  destruct (update_leader_keeps_identity pictured_store s' stamp_b 1 third_leader E)
    as ((old & new & Ho & Hn & _ & Hp & Hc & Hu) & Hother & _).
  vm_compute in Ho. injection Ho as <-.
  exists s', new. split; [done|]. split; [done|]. split; [done|].
  split; [done|]. split; [done|]. by rewrite Hother.
Defined.

(** X23.  A body that holds the name and the zone only is not a partial
    update: the leader becomes active again, and the contact number, the
    e-mail address and the address are emptied; the cell day alone is kept. *)
Theorem update_leader_defaults {F : Type} `{Amount F}
    (s : Store F) (now : DateTime.t) (leader_id : Z) (old : Leader.t)
    (name zone : string) :
  keys_distinct s →
  leader_by_id s leader_id = Some old →
  update_leader s now leader_id
    (JObj (list_to_map [("name", JStr name); ("zone", JStr zone)]))
  = (LeaderUpdated,
     put_leader s
       (Leader.mk leader_id name zone (Leader.cell_day old) (Some "") (Some "")
          (Some "") (Leader.profile_picture old) (Some true)
          (Leader.created_at old) (Some now))).
Proof.
  intros Hk Ho. unfold update_leader. rewrite Ho.
  pose proof (leader_by_id_some _ _ _ Ho) as [_ Hid].
  unfold update_transaction. cbn [item get].
  assert (Hn : (list_to_map [("name", JStr name); ("zone", JStr zone)]
                  : gmap string (json F)) !! "name" = Some (JStr name)) by done.
  assert (Hz : (list_to_map [("name", JStr name); ("zone", JStr zone)]
                  : gmap string (json F)) !! "zone" = Some (JStr zone)) by done.
  assert (Hother : ∀ key, key ≠ "name" → key ≠ "zone" →
            (list_to_map [("name", JStr name); ("zone", JStr zone)]
               : gmap string (json F)) !! key = None).
  { intros key H1 H2. cbn [list_to_map foldr uncurry].
    by rewrite !lookup_insert_ne, lookup_empty by done. }
  rewrite Hn, Hz, !Hother by done.
  cbn [need default from_option id mbind res_bind text_column bool_column
       not_null].
  destruct (Leader.cell_day old);
    cbn [or_null text_column need mbind res_bind];
    rewrite Hid, put_leader_commit by done; done.
Qed.

Lemma update_leader_defaults_witness :
  Leader.is_active leader_pictured = Some false
  ∧ update_leader pictured_store stamp_b 1 third_leader
    = (LeaderUpdated,
       put_leader pictured_store
         (Leader.mk 1 "Leader 3" "KB North" (Some "Monday") (Some "") (Some "")
            (Some "") (Some portrait) (Some true) (Some stamp_a) (Some stamp_b))).
Proof.
  split; [done|].
  exact (update_leader_defaults pictured_store stamp_b 1 leader_pictured
           "Leader 3" "KB North" pictured_store_keys eq_refl).
Defined.

(** ** Profile pictures *)

(** X24.  Removing the picture of a leader succeeds whether or not there is
    one; afterwards the leader has no picture address, the file it named is
    not in the folder, and nothing was added to the folder. *)
Theorem remove_picture_clears {F : Type} `{Amount F}
    (s : Store F) (files : gset string) (now : DateTime.t) (leader_id : Z)
    (leader : Leader.t) :
  keys_distinct s →
  leader_by_id s leader_id = Some leader →
  ∃ s' files' leader',
    remove_leader_picture s files now leader_id = (PictureRemoved, s', files')
    ∧ leader_by_id s' leader_id = Some leader'
    ∧ get_profile_picture_url leader' = None
    ∧ (∀ name, Leader.profile_picture leader = Some name → name ≠ "" →
         name ∉ files')
    ∧ files' ⊆ files
    ∧ service_records s' = service_records s.
Proof.
  intros Hk Ho. unfold remove_leader_picture. rewrite Ho.
  pose proof (leader_by_id_some _ _ _ Ho) as [_ Hid].
  destruct (Leader.profile_picture leader) as [old|] eqn:Ep.
  - destruct (truthy old) eqn:Et.
    + rewrite put_leader_commit by done. eexists _, _, _.
      split; [done|]. rewrite put_leader_lookup. cbn [Leader.id].
      rewrite Hid, Z.eqb_refl, Ho. split; [done|]. split; [done|].
      cbn [delete_profile_picture]. rewrite Et.
      split; [|split; [by intros x [? _]%elem_of_difference|done]].
      intros name [= ->] _ [_ Hx]%elem_of_difference.
      by apply Hx, elem_of_singleton.
    + exists s, files, leader. split; [done|]. split; [done|].
      unfold get_profile_picture_url. rewrite Ep, Et. split; [done|].
      split; [|done]. intros name [= ->] Hne. unfold truthy in Et.
      by apply negb_false_iff, String.eqb_eq in Et.
  - exists s, files, leader. split; [done|]. split; [done|].
    unfold get_profile_picture_url. rewrite Ep. by repeat split.
Qed.

Lemma remove_picture_clears_witness :
  ∃ s' files' leader',
    remove_leader_picture pictured_store pictured_folder stamp_b 1
    = (PictureRemoved, s', files')
    ∧ leader_by_id s' 1 = Some leader'
    ∧ get_profile_picture_url leader' = None
    ∧ portrait ∉ files'.
Proof.
  destruct (remove_picture_clears pictured_store pictured_folder stamp_b 1
              leader_pictured pictured_store_keys eq_refl)
    as (s' & files' & leader' & E & Hl & Hu & Hf & _).
  exists s', files', leader'. split; [done|]. split; [done|]. split; [done|].
  by apply Hf.
Defined.





(** ** A leader that does not exist *)

(** X27.  Only [get_leader] answers 404 for a key no leader has: the
    handlers that look the leader up inside their [try] answer it like any
    failure, with 400 or 500, and change nothing. *)
Theorem unknown_leader_answers {F : Type} `{Amount F}
    (s : Store F) (files : gset string) (now : DateTime.t)
    (timestamp leader_id : Z) (data : json F) (file : option Picture) :
  leader_id ∉ Leader.id <$> leaders s →
  get_leader s leader_id = None
  ∧ update_leader s now leader_id data = (Failed 400 NotFound, s)
  ∧ upload_leader_picture s files now timestamp leader_id file
    = (Failed 500 NotFound, s, files)
  ∧ remove_leader_picture s files now leader_id = (Failed 500 NotFound, s, files).
Proof.
  intros Hn%leader_by_id_none.
  unfold get_leader, update_leader, upload_leader_picture, remove_leader_picture.
  by rewrite Hn.
Qed.

Lemma unknown_leader_answers_witness :
  get_leader sample_store 99 = None
  ∧ update_leader sample_store stamp_b 99 third_leader
    = (Failed 400 NotFound, sample_store)
  ∧ upload_leader_picture sample_store ∅ stamp_b 1704359100 99 None
    = (Failed 500 NotFound, sample_store, ∅)
  ∧ remove_leader_picture sample_store ∅ stamp_b 99
    = (Failed 500 NotFound, sample_store, ∅).
Proof.
  apply (unknown_leader_answers sample_store ∅ stamp_b 1704359100 99 third_leader
           None).
  vm_compute. intros Hin.
  by repeat (apply elem_of_cons in Hin as [?|Hin]; [done|];
             try by apply elem_of_nil in Hin).
Defined.

(** ** The public counters and the seed *)

Lemma filter_omap_length {A B} (f : A → option B) (p : B → bool) (q : A → bool)
    (l : list A) :
  (∀ x y, f x = Some y → p y = true → q x = true) →
  (length (List.filter p (omap f l)) ≤ length (List.filter q l))%nat.
Proof.
  intros Hpq. induction l as [|x l IH]; [done|]. cbn [omap list_omap List.filter].
  destruct (f x) as [y|] eqn:Ef.
  - cbn [List.filter]. destruct (p y) eqn:Ep.
    + rewrite (Hpq x y Ef Ep). simpl. lia.
    + destruct (q x); simpl; lia.
  - destruct (q x); simpl; lia.
Qed.

Lemma List_filter_length {A} (p : A → bool) (l : list A) :
  (length (List.filter p l) ≤ length l)%nat.
Proof. induction l as [|x l IH]; [done|]. simpl. destruct (p x); simpl; lia. Qed.

(** X28.  The overview of the week never counts more records than the public
    counter of recent submissions, which counts the records without a leader
    and those dated after today as well, and that counter never exceeds the
    number of all submissions. *)
Theorem overview_within_counters {F : Type} `{Amount F}
    (s : Store F) (today : Date.t) (period_arg zone_arg leader_id_arg : option string)
    (o : Overview.t F) :
  default "week" period_arg = "week" →
  analytics_overview s today period_arg zone_arg leader_id_arg = Ok o →
  Overview.total_records o ≤ recent_count (stats_overview s today)
  ∧ recent_count (stats_overview s today)
    ≤ total_submissions (stats_overview s today)
  ∧ 0 ≤ total_leaders (stats_overview s today) ≤ Z.of_nat (length (leaders s)).
Proof.
  intros Hp. unfold analytics_overview. rewrite Hp.
  change (period_start "week" today) with (date_sub_days today 7).
  unfold stats_overview. cbn [recent_count total_submissions total_leaders].
  generalize (date_sub_days today 7). intros week_ago Ho.
  apply overview_of_inv in Ho as (_ & _ & _ & _ & _ & _ & _ & _ & _ & _ & _ & _ & _ & ->).
  split; [|split; [|split; [lia|]]].
  - apply inj_le. unfold select, joined. apply filter_omap_length.
    intros r row Hr Hk. destruct (leader_of s r) as [l|]; [|done].
    injection Hr as <-. rewrite !andb_true_iff in Hk.
    destruct Hk as [[Hk _] _]. unfold in_range in Hk.
    by apply andb_prop in Hk as [Hk _].
  - apply inj_le, List_filter_length.
  - apply inj_le, List_filter_length.
Qed.

Lemma overview_within_counters_witness :
  ∃ o, analytics_overview sample_store a_monday None None None = Ok o
       ∧ Overview.total_records o = 4
       ∧ recent_count (stats_overview sample_store a_monday) = 4
       ∧ Overview.total_records o ≤ recent_count (stats_overview sample_store a_monday).
Proof.
  destruct (analytics_overview sample_store a_monday None None None)
    as [o|] eqn:Eo; [|by vm_compute in Eo].
  exists o. split; [done|].
  destruct (overview_within_counters sample_store a_monday None None None o
              eq_refl Eo) as (Hle & _).
  split; [|split; [by vm_compute|done]].
  vm_compute in Eo. by injection Eo as <-.
Defined.

(** X29.  Seeding does not look at what the store held: it leaves no record
    and thirty leaders with the keys 1 to 30, all of them active and without
    a picture, ten in each of the three zones. *)
Theorem seed_database_result {F : Type} `{Amount F}
    (s : Store F) (now : DateTime.t) :
  service_records (seed_database s now) = []
  ∧ Leader.id <$> leaders (seed_database s now) = (λ k, Z.of_nat k) <$> seq 1 30
  ∧ Forall (λ zone,
              length (List.filter (λ l, String.eqb (Leader.zone l) zone)
                        (leaders (seed_database s now))) = 10%nat) SA_ZONES
  ∧ Forall (λ l, Leader.is_active l = Some true
                 ∧ Leader.profile_picture l = None
                 ∧ Leader.created_at l = Some now)
      (leaders (seed_database s now))
  ∧ seed_database (seed_database s now) now = seed_database s now.
Proof.
  split; [done|]. split; [done|]. split.
  - unfold seed_database, SA_ZONES. cbn [leaders].
    repeat (constructor; [reflexivity|]). constructor.
  - split; [|done]. unfold seed_database. cbn [leaders].
    apply Forall_fmap, Forall_forall. by intros i _.
Qed.
